(** * Budget ledger, approval gate and alert dispatcher of the ERP budget and
      expense tracker

    A shallow embedding of the server side of the tracker: the Mongoose
    models [Expense] and [Budget], the expense and budget controllers and
    the route middleware that guards them.

    Modelling conventions.
    - A JavaScript [Number] holding money, a rate or a percentage is an exact
      rational ([Q]); results are compared with [==].  [Math.round] is
      [Math_round].
    - A [Date] is its millisecond time stamp ([Z]).  Every handler takes the
      clock reading [now] of the request it serves.
    - An [ObjectId] is a [nat].
    - A collection is the list of its documents in natural order; a handler
      maps the store before the request to an [Outcome]: the response, the
      store after the request and the mails handed to the mail service.
    - Only the fields that the ledger, the gate and the dispatcher read or
      write are kept in the records. *)

From Stdlib Require Import ZArith QArith Qround Qabs List Bool String Ascii.
From Stdlib Require Import Lia Lqa.
Import ListNotations.

Local Open Scope Q_scope.

Definition Id := nat.

(** ** JavaScript primitives *)

Module JS.

(** [Math.round]: the nearest integer, a tie going up. *)
Definition Math_round (x : Q) : Z := Qfloor (x + (1 # 2)).

(** [x || d] on a possibly undefined number: [undefined] and [0] are
    falsy. *)
Definition num_or (x : option Q) (d : Q) : Q :=
  match x with
  | Some q => if Qeq_bool q 0 then d else q
  | None => d
  end.

(** Truthiness of a possibly undefined string: [undefined] and the empty
    string are falsy. *)
Definition truthy (x : option string) : bool :=
  match x with
  | Some EmptyString => false
  | Some _ => true
  | None => false
  end.

(** White space removed by [String.prototype.trim], among the code units
    below 256. *)
Definition is_space (c : ascii) : bool :=
  let n := nat_of_ascii c in
  ((9 <=? n) && (n <=? 13) || (n =? 32) || (n =? 160))%nat.

Fixpoint ltrim (l : list ascii) : list ascii :=
  match l with
  | [] => []
  | c :: l' => if is_space c then ltrim l' else l
  end.

Definition trim (s : string) : string :=
  string_of_list_ascii
    (rev (ltrim (rev (ltrim (list_ascii_of_string s))))).

(** [arr.includes(x)] on an array of strings. *)
Definition includes (arr : list string) (x : string) : bool :=
  existsb (String.eqb x) arr.

End JS.

(** ** models/User *)

Module User.

Inductive Role := admin | manager | user.

Definition Role_eqb (a b : Role) : bool :=
  match a, b with
  | admin, admin | manager, manager | user, user => true
  | _, _ => false
  end.

Record t := mk { _id : Id; role : Role }.

End User.

(** ** models/Expense *)

Module Expense.

Inductive Status := pending | approved | rejected | reimbursed.

Definition Status_eqb (a b : Status) : bool :=
  match a, b with
  | pending, pending | approved, approved
  | rejected, rejected | reimbursed, reimbursed => true
  | _, _ => false
  end.

(** The schema's [enum] of [status]. *)
Definition status_of_string (s : string) : option Status :=
  if String.eqb s "pending" then Some pending
  else if String.eqb s "approved" then Some approved
  else if String.eqb s "rejected" then Some rejected
  else if String.eqb s "reimbursed" then Some reimbursed
  else None.

Record AuditEntry := mkAudit {
  action : string;
  performedBy : Id;
  timestamp : Z;
  changes : option string;
  reason : option string
}.

Record t := mk {
  _id : Id;
  amount : Q;
  exchangeRate : Q;
  convertedAmount : option Q;
  date : Z;
  budget : option Id;
  status : Status;
  submittedBy : Id;
  approvedBy : option Id;
  approvalDate : option Z;
  rejectionReason : option string;
  auditLog : list AuditEntry
}.

Definition set_approvalDate (d : option Z) (e : t) : t :=
  mk (_id e) (amount e) (exchangeRate e) (convertedAmount e) (date e)
     (budget e) (status e) (submittedBy e) (approvedBy e) d
     (rejectionReason e) (auditLog e).

Definition set_convertedAmount (c : option Q) (e : t) : t :=
  mk (_id e) (amount e) (exchangeRate e) c (date e)
     (budget e) (status e) (submittedBy e) (approvedBy e) (approvalDate e)
     (rejectionReason e) (auditLog e).

(** The schema validators of the fields kept here: [min: 0] on [amount]
    and [exchangeRate], [maxlength: 200] on [rejectionReason]. *)
Definition validate (e : t) : bool :=
  Qle_bool 0 (amount e) && Qle_bool 0 (exchangeRate e) &&
  match rejectionReason e with
  | Some r => (String.length r <=? 200)%nat
  | None => true
  end.

(** [expenseSchema.pre('save')]; [modStatus], [modAmount] and [modRate]
    are [this.isModified] of the three paths. *)
Definition pre_save (now : Z) (modStatus modAmount modRate : bool)
    (e : t) : t :=
  let e1 :=
    if modStatus && Status_eqb (status e) approved &&
       match approvalDate e with None => true | Some _ => false end
    then set_approvalDate (Some now) e
    else e in
  if modAmount || modRate
  then set_convertedAmount
         (Some (amount e1 * JS.num_or (Some (exchangeRate e1)) 1)) e1
  else e1.

(** [expenseSchema.methods.addAuditLog]. *)
Definition addAuditLog (now : Z) (action : string) (performedBy : Id)
    (changes reason : option string) (e : t) : t :=
  mk (_id e) (amount e) (exchangeRate e) (convertedAmount e) (date e)
     (budget e) (status e) (submittedBy e) (approvedBy e) (approvalDate e)
     (rejectionReason e)
     (auditLog e ++ [mkAudit action performedBy now changes reason]).

End Expense.

(** ** models/Budget *)

Module Budget.

Inductive Status := draft | pending | approved | rejected | active | expired.

Definition Status_eqb (a b : Status) : bool :=
  match a, b with
  | draft, draft | pending, pending | approved, approved
  | rejected, rejected | active, active | expired, expired => true
  | _, _ => false
  end.

Record t := mk {
  _id : Id;
  amount : Q;
  startDate : Z;
  endDate : Z;
  owner : Id;
  status : Status;
  alertThreshold : Q
}.

(** The query [{ budget: this._id, status: { $in: ['approved',
    'reimbursed'] } }]. *)
Definition counted (id : Id) (e : Expense.t) : bool :=
  match Expense.budget e with
  | Some b => (b =? id)%nat
  | None => false
  end &&
  (Expense.Status_eqb (Expense.status e) Expense.approved ||
   Expense.Status_eqb (Expense.status e) Expense.reimbursed).

(** [budgetSchema.methods.calculateSpentAmount], over the expense
    collection. *)
Definition calculateSpentAmount (b : t) (expenses : list Expense.t) : Q :=
  fold_left
    (fun total expense =>
       total + JS.num_or (Expense.convertedAmount expense)
                         (Expense.amount expense))
    (filter (counted (_id b)) expenses) 0.

(** The virtual [remainingAmount]; [spentAmount] stands for
    [this.spentAmount], taken to be the number that the ledger computed, or
    undefined when none was filled in. *)
Definition remainingAmount (b : t) (spentAmount : option Q) : Q :=
  amount b - JS.num_or spentAmount 0.

(** The virtual [usagePercentage]. *)
Definition usagePercentage (b : t) (spentAmount : option Q) : Z :=
  if Qeq_bool (amount b) 0 then 0%Z
  else JS.Math_round (JS.num_or spentAmount 0 / amount b * 100).


End Budget.

(** ** The entity store and the outcome of a request *)

Section Collection.

Context {A : Type} (key : A -> Id).

(** [Model.findById]. *)
Definition findById (id : Id) (docs : list A) : option A :=
  find (fun d => (key d =? id)%nat) docs.

(** Writing a document back under its identifier ([doc.save()] of a
    stored document, [Model.findByIdAndUpdate]). *)
Fixpoint saveDoc (d : A) (docs : list A) : list A :=
  match docs with
  | [] => []
  | x :: docs' =>
      if (key x =? key d)%nat then d :: docs' else x :: saveDoc d docs'
  end.

(** [doc.deleteOne()]. *)
Fixpoint deleteOne (id : Id) (docs : list A) : list A :=
  match docs with
  | [] => []
  | x :: docs' =>
      if (key x =? id)%nat then docs' else x :: deleteOne id docs'
  end.

(** [Model.countDocuments(query)]. *)
Definition countDocuments (query : A -> bool) (docs : list A) : nat :=
  List.length (filter query docs).

End Collection.

Record Store := mkStore {
  expenses : list Expense.t;
  budgets : list Budget.t;
  users : list User.t
}.

(** The calls made to the mail service. *)
Inductive Mail :=
| BudgetAlert (user : Id) (budget : Budget.t) (spentAmount : Q)
    (percentage : Z)
| ExpenseNotification (user : option User.t) (expense : Expense.t)
    (action : Expense.Status).

(** The failure responses of the handlers below, by their message. *)
Inductive Error :=
| ValidationFailed      (* 400 Validation failed *)
| Forbidden             (* 403 not authorized *)
| InvalidStatus         (* 400 Invalid status. Must be approved or rejected *)
| MissingReason         (* 400 Rejection reason is required ... *)
| ExpenseNotFound       (* 404 Expense not found *)
| NotPending            (* 400 Expense is not pending review *)
| NotEditable           (* 400 Cannot edit expense that is not pending *)
| BudgetNotFound        (* Budget not found *)
| BudgetInactive        (* 400 Budget is not active *)
| OutOfPeriod           (* 400 Expense date is outside budget period *)
| HasExpenses           (* 400 Cannot delete budget with associated expenses *)
| SchemaError           (* a Mongoose validation error passed to next() *)
| ServerError.          (* any other exception passed to next() *)

Inductive Response (A : Type) :=
| Success (data : A)
| Failure (err : Error).

Arguments Success {A} data.
Arguments Failure {A} err.

Record Outcome (A : Type) := mkOutcome {
  response : Response A;
  db : Store;
  outbox : list Mail
}.

Arguments mkOutcome {A} response db outbox.
Arguments response {A} o.
Arguments db {A} o.
Arguments outbox {A} o.

(** A failure that leaves the store as it was and sends nothing. *)
Definition reject {A : Type} (err : Error) (s : Store) : Outcome A :=
  mkOutcome (Failure err) s [].

(** ** The request bodies *)

Module Body.

(** The body of [POST /api/expenses] and [PUT /api/expenses/:id]: every
    field is optional, [status] is the string sent by the caller. *)
Record t := mk {
  amount : option Q;
  exchangeRate : option Q;
  date : option Z;
  budget : option Id;
  status : option string;
  approvedBy : option Id;
  approvalDate : option Z;
  rejectionReason : option string
}.

(** The body of [PUT /api/expenses/:id/review]. *)
Record review := mkReview {
  r_status : option string;
  r_rejectionReason : option string
}.

End Body.

(** ** middleware/auth *)

Module auth.

(** [authorize(...roles)]: [true] when the request goes on to the next
    handler, [false] when it is answered 403. *)
Definition authorize (roles : list User.Role) (req_user : User.t) : bool :=
  existsb (User.Role_eqb (User.role req_user)) roles.

End auth.

(** ** controllers/expenseController *)

Module expenseController.

(** The query [{ budget: budgetId, status: 'approved' }] of
    [checkBudgetAlert]. *)
Definition approvedOf (budgetId : Id) (e : Expense.t) : bool :=
  match Expense.budget e with
  | Some b => (b =? budgetId)%nat
  | None => false
  end &&
  Expense.Status_eqb (Expense.status e) Expense.approved.

(** The constant [spentAmount] of [checkBudgetAlert]. *)
Definition spentAmount (budgetId : Id) (expenses : list Expense.t) : Q :=
  fold_left (fun total expense => total + Expense.amount expense)
    (filter (approvedOf budgetId) expenses) 0.

(** The constant [percentage] of [checkBudgetAlert]. *)
Definition percentage (budget : Budget.t) (spentAmount : Q) : Z :=
  if negb (Qle_bool (Budget.amount budget) 0)
  then JS.Math_round (spentAmount / Budget.amount budget * 100)
  else 0%Z.

(** [checkBudgetAlert]: the mails it hands to [sendBudgetAlert]. *)
Definition checkBudgetAlert (s : Store) (budgetId : Id) : list Mail :=
  match findById Budget._id budgetId (budgets s) with
  | None => []
  | Some budget =>
      let spent := spentAmount budgetId (expenses s) in
      let pct := percentage budget spent in
      if Qle_bool (Budget.alertThreshold budget) (inject_Z pct)
      then [BudgetAlert (Budget.owner budget) budget spent pct]
      else []
  end.

(** The alert check that follows a write of [expense], made when
    [approved] holds and the expense has a budget. *)
Definition alertAfter (s : Store) (approved : bool) (expense : Expense.t)
    : list Mail :=
  match approved, Expense.budget expense with
  | true, Some budgetId => checkBudgetAlert s budgetId
  | _, _ => []
  end.

Definition withExpenses (s : Store) (docs : list Expense.t) : Store :=
  mkStore docs (budgets s) (users s).

(** The budget checks of [createExpense]. *)
Definition checkBudget (now : Z) (body : Body.t) (s : Store)
    : option Error :=
  match Body.budget body with
  | None => None
  | Some budgetId =>
      match findById Budget._id budgetId (budgets s) with
      | None => Some BudgetNotFound
      | Some budget =>
          if negb (Budget.Status_eqb (Budget.status budget) Budget.active)
             && negb (Budget.Status_eqb (Budget.status budget)
                        Budget.approved)
          then Some BudgetInactive
          else
            let expenseDate :=
              match Body.date body with Some d => d | None => now end in
            if ((expenseDate <? Budget.startDate budget) ||
                (expenseDate >? Budget.endDate budget))%Z
            then Some OutOfPeriod
            else None
      end
  end.

(** A new [ObjectId]. *)
Definition newId (docs : list Expense.t) : Id :=
  S (fold_right Nat.max 0%nat (map Expense._id docs)).

(** The document that [Expense.create(req.body)] builds before it is
    validated: the fields of the body, the schema defaults for the others;
    [None] when [status] is outside the schema's enum. *)
Definition newExpense (now : Z) (req_user : User.t) (body : Body.t)
    (amount : Q) (docs : list Expense.t) : option Expense.t :=
  match
    match Body.status body with
    | Some str => Expense.status_of_string str
    | None => Some Expense.pending
    end
  with
  | None => None
  | Some st =>
      Some (Expense.mk (newId docs) amount
              (match Body.exchangeRate body with Some r => r | None => 1 end)
              (Some amount)
              (match Body.date body with Some d => d | None => now end)
              (Body.budget body) st (User._id req_user)
              (Body.approvedBy body) (Body.approvalDate body)
              (option_map JS.trim (Body.rejectionReason body))
              [])
  end.

Definition isSome {A : Type} (x : option A) : bool :=
  match x with Some _ => true | None => false end.

(** [createExpense]; [valid] is [validationResult(req).isEmpty()]. *)
Definition createExpense (now : Z) (req_user : User.t) (valid : bool)
    (body : Body.t) (s : Store) : Outcome Expense.t :=
  if negb valid then reject ValidationFailed s
  else
    match checkBudget now body s with
    | Some err => reject err s
    | None =>
        match Body.amount body with
        | None => reject SchemaError s
        | Some amount =>
            match newExpense now req_user body amount (expenses s) with
            | None => reject SchemaError s
            | Some doc =>
                if negb (Expense.validate doc) then reject SchemaError s
                else
                  let expense :=
                    Expense.pre_save now (isSome (Body.status body)) true
                      (isSome (Body.exchangeRate body)) doc in
                  let s' := withExpenses s (expenses s ++ [expense]) in
                  mkOutcome (Success expense) s'
                    (alertAfter s'
                       (Expense.Status_eqb (Expense.status expense)
                          Expense.approved) expense)
            end
        end
    end.

(** The document after [findByIdAndUpdate(id, req.body)]: every field of
    the body replaces the stored one. *)
Definition applyUpdate (body : Body.t) (st : Expense.Status)
    (e : Expense.t) : Expense.t :=
  let or {A : Type} (x : option A) (d : A) :=
    match x with Some v => v | None => d end in
  let orOpt {A : Type} (x : option A) (d : option A) :=
    match x with Some v => Some v | None => d end in
  Expense.mk (Expense._id e)
    (or (Body.amount body) (Expense.amount e))
    (or (Body.exchangeRate body) (Expense.exchangeRate e))
    (Expense.convertedAmount e)
    (or (Body.date body) (Expense.date e))
    (orOpt (Body.budget body) (Expense.budget e))
    st
    (Expense.submittedBy e)
    (orOpt (Body.approvedBy body) (Expense.approvedBy e))
    (orOpt (Body.approvalDate body) (Expense.approvalDate e))
    (orOpt (option_map JS.trim (Body.rejectionReason body))
       (Expense.rejectionReason e))
    (Expense.auditLog e).

(** [runValidators: true]: the schema validators of the paths that the
    update sets. *)
Definition updateValidators (body : Body.t) : bool :=
  match Body.amount body with Some a => Qle_bool 0 a | None => true end &&
  match Body.exchangeRate body with
  | Some r => Qle_bool 0 r
  | None => true
  end &&
  match Body.rejectionReason body with
  | Some r => (String.length (JS.trim r) <=? 200)%nat
  | None => true
  end.

(** [updateExpense]; [valid] is [validationResult(req).isEmpty()]. *)
Definition updateExpense (req_user : User.t) (id : Id) (valid : bool)
    (body : Body.t) (s : Store) : Outcome Expense.t :=
  if negb valid then reject ValidationFailed s
  else
    match findById Expense._id id (expenses s) with
    | None => reject ExpenseNotFound s
    | Some expense =>
        let isUser := User.Role_eqb (User.role req_user) User.user in
        if isUser &&
           negb (Expense.submittedBy expense =? User._id req_user)%nat
        then reject Forbidden s
        else if isUser &&
                negb (Expense.Status_eqb (Expense.status expense)
                        Expense.pending)
        then reject NotEditable s
        else
          let oldStatus := Expense.status expense in
          match
            match Body.status body with
            | Some str => Expense.status_of_string str
            | None => Some oldStatus
            end
          with
          | None => reject SchemaError s
          | Some st =>
              let updated := applyUpdate body st expense in
              if negb (updateValidators body) then reject SchemaError s
              else
                let s' := withExpenses s (saveDoc Expense._id updated
                                            (expenses s)) in
                let changed :=
                  negb (Expense.Status_eqb oldStatus st) &&
                  (Expense.Status_eqb st Expense.approved ||
                   Expense.Status_eqb st Expense.rejected) in
                let submitter :=
                  findById User._id (Expense.submittedBy updated)
                    (users s) in
                if changed && negb (isSome submitter)
                then mkOutcome (Failure ServerError) s' []
                else
                  mkOutcome (Success updated) s'
                    ((if changed
                      then [ExpenseNotification submitter updated st]
                      else []) ++
                     alertAfter s'
                       (Expense.Status_eqb st Expense.approved &&
                        isSome (match Expense.budget updated with
                                | Some b =>
                                    findById Budget._id b (budgets s)
                                | None => None
                                end))
                       updated)
          end
    end.

(** The decision of a review: [status] when it is one of ['approved',
    'rejected']. *)
Definition decision (status : option string) : option Expense.Status :=
  match status with
  | Some str =>
      if JS.includes ["approved"; "rejected"]%string str
      then Expense.status_of_string str
      else None
  | None => None
  end.

(** The assignments of [reviewExpense] to the loaded document; the
    schema trims [rejectionReason] when it is assigned. *)
Definition applyReview (now : Z) (req_user : User.t) (st : Expense.Status)
    (rejectionReason : option string) (expense : Expense.t) : Expense.t :=
  Expense.mk (Expense._id expense) (Expense.amount expense)
    (Expense.exchangeRate expense)
    (Expense.convertedAmount expense) (Expense.date expense)
    (Expense.budget expense)
    st
    (Expense.submittedBy expense)
    (Some (User._id req_user))
    (Some now)
    (if JS.truthy rejectionReason
     then option_map JS.trim rejectionReason
     else Expense.rejectionReason expense)
    (Expense.auditLog expense).

(** [reviewExpense]. *)
Definition reviewExpense (now : Z) (req_user : User.t) (id : Id)
    (body : Body.review) (s : Store) : Outcome Expense.t :=
  let status := Body.r_status body in
  let rejectionReason := Body.r_rejectionReason body in
  match decision status with
  | None => reject InvalidStatus s
  | Some st =>
      if Expense.Status_eqb st Expense.rejected &&
         negb (JS.truthy rejectionReason)
      then reject MissingReason s
      else
        match findById Expense._id id (expenses s) with
        | None => reject ExpenseNotFound s
        | Some expense =>
            if negb (Expense.Status_eqb (Expense.status expense)
                       Expense.pending)
            then reject NotPending s
            else
              let doc :=
                applyReview now req_user st rejectionReason expense in
              if negb (Expense.validate doc) then reject SchemaError s
              else
                let saved := Expense.pre_save now true false false doc in
                let s' := withExpenses s (saveDoc Expense._id saved
                                            (expenses s)) in
                mkOutcome (Success saved) s'
                  (ExpenseNotification
                     (findById User._id (Expense.submittedBy saved)
                        (users s)) saved st
                   :: alertAfter s'
                        (Expense.Status_eqb st Expense.approved) saved)
        end
  end.

End expenseController.

(** ** routes/expenses *)

Module expenseRoutes.

(** [expenseValidation], on the fields kept in [Body.t]: [amount] is
    required and a float that is at least 0. *)
Definition expenseValidation (body : Body.t) : bool :=
  match Body.amount body with
  | Some a => Qle_bool 0 a
  | None => false
  end.

(** [updateExpenseValidation], on the fields kept in [Body.t]: [amount]
    is optional and at least 0, [status] is optional and one of the four
    statuses. *)
Definition updateExpenseValidation (body : Body.t) : bool :=
  match Body.amount body with
  | Some a => Qle_bool 0 a
  | None => true
  end &&
  match Body.status body with
  | Some str =>
      JS.includes ["pending"; "approved"; "rejected"; "reimbursed"]%string
        str
  | None => true
  end.

(** [reviewValidation]: the controller does not read its errors, it sees
    the body as the sanitizer [trim()] left it, which runs on
    [rejectionReason] when [status] equals ['rejected']. *)
Definition reviewValidation (body : Body.review) : Body.review :=
  match Body.r_status body with
  | Some str =>
      if String.eqb str "rejected"
      then Body.mkReview (Body.r_status body)
             (Some (JS.trim match Body.r_rejectionReason body with
                            | Some r => r
                            | None => EmptyString
                            end))
      else body
  | None => body
  end.

(** [router.post('/', protect, expenseValidation, createExpense)]. *)
Definition post (now : Z) (req_user : User.t) (body : Body.t) (s : Store)
    : Outcome Expense.t :=
  expenseController.createExpense now req_user (expenseValidation body)
    body s.

(** [router.put('/:id', protect, updateExpenseValidation,
    updateExpense)]. *)
Definition put (req_user : User.t) (id : Id) (body : Body.t) (s : Store)
    : Outcome Expense.t :=
  expenseController.updateExpense req_user id
    (updateExpenseValidation body) body s.

(** [router.put('/:id/review', protect, authorize('manager', 'admin'),
    reviewValidation, reviewExpense)]. *)
Definition put_review (now : Z) (req_user : User.t) (id : Id)
    (body : Body.review) (s : Store) : Outcome Expense.t :=
  if auth.authorize [User.manager; User.admin] req_user
  then expenseController.reviewExpense now req_user id
         (reviewValidation body) s
  else reject Forbidden s.

End expenseRoutes.

(** ** controllers/budgetController *)

Module budgetController.

(** The query [{ budget: budget._id }]. *)
Definition linked (budgetId : Id) (e : Expense.t) : bool :=
  match Expense.budget e with
  | Some b => (b =? budgetId)%nat
  | None => false
  end.

(** [deleteBudget]. *)
Definition deleteBudget (req_user : User.t) (id : Id) (s : Store)
    : Outcome unit :=
  match findById Budget._id id (budgets s) with
  | None => reject BudgetNotFound s
  | Some budget =>
      if negb (User.Role_eqb (User.role req_user) User.admin) &&
         negb (Budget.owner budget =? User._id req_user)%nat
      then reject Forbidden s
      else
        let expenseCount :=
          countDocuments (linked (Budget._id budget)) (expenses s) in
        if (0 <? expenseCount)%nat then reject HasExpenses s
        else
          mkOutcome (Success tt)
            (mkStore (expenses s)
               (deleteOne Budget._id (Budget._id budget) (budgets s))
               (users s))
            []
  end.

End budgetController.

(** ** Responses of the further handlers *)

(** A response by its status code: the data of a success, the message of a
    failure, or the exception handed to [next]. *)
Inductive Reply (A : Type) :=
| Sent (status : nat) (data : A)
| Refused (status : nat) (message : string)
| Thrown (err : Error).

Arguments Sent {A} status data.
Arguments Refused {A} status message.
Arguments Thrown {A} err.

(** ** controllers/expenseController: reading and deleting *)

Module expenseAccess.

(** [getExpense]; [submittedBy] is populated, so reading its [_id] throws
    when the submitter is no longer stored. *)
Definition getExpense (req_user : User.t) (id : Id) (s : Store)
    : Reply Expense.t :=
  match findById Expense._id id (expenses s) with
  | None => Refused 404 "Expense not found"
  | Some expense =>
      if User.Role_eqb (User.role req_user) User.user
      then
        match findById User._id (Expense.submittedBy expense) (users s) with
        | None => Thrown ServerError
        | Some submitter =>
            if negb (User._id submitter =? User._id req_user)%nat
            then Refused 403 "Not authorized to access this expense"
            else Sent 200 expense
        end
      else Sent 200 expense
  end.

(** [deleteExpense]: the response and the store after it. *)
Definition deleteExpense (req_user : User.t) (id : Id) (s : Store)
    : Reply unit * Store :=
  match findById Expense._id id (expenses s) with
  | None => (Refused 404 "Expense not found", s)
  | Some expense =>
      if negb (User.Role_eqb (User.role req_user) User.admin) &&
         negb (Expense.submittedBy expense =? User._id req_user)%nat
      then (Refused 403 "Not authorized to delete this expense", s)
      else if User.Role_eqb (User.role req_user) User.user &&
              negb (Expense.Status_eqb (Expense.status expense)
                      Expense.pending)
      then (Refused 400 "Cannot delete expense that is not pending", s)
      else
        (Sent 200 tt,
         mkStore (deleteOne Expense._id (Expense._id expense) (expenses s))
           (budgets s) (users s))
  end.

(** The counters of [getExpenseAnalytics] that depend on the amount and the
    status of the expenses: [overview] and [statusBreakdown]. *)
Record Analytics := mkAnalytics {
  totalExpenses : nat;
  totalAmount : Q;
  approvedAmount : Q;
  pendingAmount : Q;
  rejectedAmount : Q;
  n_pending : nat;
  n_approved : nat;
  n_rejected : nat;
  n_reimbursed : nat
}.

(** One round of the [forEach] of [getExpenseAnalytics]. *)
Definition tally (a : Analytics) (expense : Expense.t) : Analytics :=
  let st := Expense.status expense in
  let has x := Expense.Status_eqb st x in
  mkAnalytics (totalExpenses a)
    (totalAmount a + Expense.amount expense)
    (if has Expense.approved
     then approvedAmount a + Expense.amount expense else approvedAmount a)
    (if has Expense.approved then pendingAmount a
     else if has Expense.pending
     then pendingAmount a + Expense.amount expense else pendingAmount a)
    (if has Expense.approved then rejectedAmount a
     else if has Expense.pending then rejectedAmount a
     else if has Expense.rejected
     then rejectedAmount a + Expense.amount expense else rejectedAmount a)
    (if has Expense.pending then S (n_pending a) else n_pending a)
    (if has Expense.approved then S (n_approved a) else n_approved a)
    (if has Expense.rejected then S (n_rejected a) else n_rejected a)
    (if has Expense.reimbursed then S (n_reimbursed a) else n_reimbursed a).

(** The figures of [getExpenseAnalytics] for the expenses that its query
    returned. *)
Definition getExpenseAnalytics (found : list Expense.t) : Analytics :=
  fold_left tally found
    (mkAnalytics (List.length found) 0 0 0 0 0 0 0 0).

(** [parseInt(x, 10) || d]: [x] is the integer that [parseInt] reads, if
    any; [NaN] and [0] are falsy. *)
Definition parseIntOr (x : option Z) (d : Z) : Z :=
  match x with
  | Some 0%Z => d
  | Some n => n
  | None => d
  end.

(** The pagination block of the responses of [getExpenses] and
    [getBudgets]. *)
Record Pagination := mkPagination {
  page : Z;
  limit : Z;
  total : nat;
  pages : Z
}.

(** [Math.ceil(total / limit)] for a positive [limit]. *)
Definition ceilDiv (total limit : Z) : Z := (- ((- total) / limit))%Z.

(** The page of [getExpenses]: [found] are the documents that match the
    query, in the order of the sort.  The database skips [startIndex]
    documents and returns at most [limit]; a skip or a limit below 0 is
    left to the database and not covered ([None]). *)
Definition getExpenses {A : Type} (qpage qlimit : option Z) (found : list A)
    : option (list A * Pagination) :=
  let page := parseIntOr qpage 1 in
  let limit := parseIntOr qlimit 10 in
  let startIndex := ((page - 1) * limit)%Z in
  if ((limit <? 0) || (startIndex <? 0))%Z then None
  else
    Some (firstn (Z.to_nat limit) (skipn (Z.to_nat startIndex) found),
          mkPagination page limit (List.length found)
            (ceilDiv (Z.of_nat (List.length found)) limit)).

End expenseAccess.

(** ** models/Budget: the hook, and controllers/budgetController: views and
       writes *)

Module BudgetBody.

(** The body of [POST /api/budgets] and [PUT /api/budgets/:id], on the
    fields kept in [Budget.t]. *)
Record t := mk {
  amount : option Q;
  startDate : option Z;
  endDate : option Z;
  status : option string;
  alertThreshold : option Q
}.

End BudgetBody.

Module budgetWrites.

(** The schema's [enum] of the status of a budget. *)
Definition status_of_string (s : string) : option Budget.Status :=
  if String.eqb s "draft" then Some Budget.draft
  else if String.eqb s "pending" then Some Budget.pending
  else if String.eqb s "approved" then Some Budget.approved
  else if String.eqb s "rejected" then Some Budget.rejected
  else if String.eqb s "active" then Some Budget.active
  else if String.eqb s "expired" then Some Budget.expired
  else None.

Definition set_status (st : Budget.Status) (b : Budget.t) : Budget.t :=
  Budget.mk (Budget._id b) (Budget.amount b) (Budget.startDate b)
    (Budget.endDate b) (Budget.owner b) st (Budget.alertThreshold b).

(** [budgetSchema.pre('save')], on the fields kept in [Budget.t]: [None]
    is the error [End date must be after start date]. *)
Definition pre_save (now : Z) (b : Budget.t) : option Budget.t :=
  if (Budget.endDate b <=? Budget.startDate b)%Z then None
  else
    Some
      (if Budget.Status_eqb (Budget.status b) Budget.approved &&
          (Budget.startDate b <=? now)%Z && (now <=? Budget.endDate b)%Z
       then set_status Budget.active b
       else if Budget.Status_eqb (Budget.status b) Budget.active &&
               (now >? Budget.endDate b)%Z
       then set_status Budget.expired b
       else b).

(** The virtual [isExpired]. *)
Definition isExpired (now : Z) (b : Budget.t) : bool :=
  (now >? Budget.endDate b)%Z.

(** The schema validators of the fields kept in [Budget.t]: [min: 0] on
    [amount], [min: 0] and [max: 100] on [alertThreshold]. *)
Definition validate (b : Budget.t) : bool :=
  Qle_bool 0 (Budget.amount b) &&
  Qle_bool 0 (Budget.alertThreshold b) &&
  Qle_bool (Budget.alertThreshold b) 100.

(** [budgetValidation] of the route, on the fields of the body: an amount
    of at least 0, both dates with the end after the start, a threshold
    between 0 and 100 when there is one. *)
Definition budgetValidation (body : BudgetBody.t) : bool :=
  match BudgetBody.amount body with
  | Some a => Qle_bool 0 a
  | None => false
  end &&
  match BudgetBody.startDate body, BudgetBody.endDate body with
  | Some sd, Some ed => negb (ed <=? sd)%Z
  | _, _ => false
  end &&
  match BudgetBody.alertThreshold body with
  | Some t => Qle_bool 0 t && Qle_bool t 100
  | None => true
  end.

(** [updateBudgetValidation] of the route: every field is optional. *)
Definition updateBudgetValidation (body : BudgetBody.t) : bool :=
  match BudgetBody.amount body with
  | Some a => Qle_bool 0 a
  | None => true
  end &&
  match BudgetBody.alertThreshold body with
  | Some t => Qle_bool 0 t && Qle_bool t 100
  | None => true
  end &&
  match BudgetBody.status body with
  | Some str =>
      JS.includes
        ["draft"; "pending"; "approved"; "rejected"; "active";
         "expired"]%string str
  | None => true
  end.

(** A new [ObjectId] for a budget. *)
Definition newBudgetId (docs : list Budget.t) : Id :=
  S (fold_right Nat.max 0%nat (map Budget._id docs)).

(** The document that [Budget.create(req.body)] builds, with the owner that
    [createBudget] wrote into the body: [None] when a required field is
    missing or [status] is outside the enum. *)
Definition newBudget (req_user : User.t) (body : BudgetBody.t)
    (docs : list Budget.t) : option Budget.t :=
  match BudgetBody.amount body, BudgetBody.startDate body,
        BudgetBody.endDate body,
        match BudgetBody.status body with
        | Some str => status_of_string str
        | None => Some Budget.draft
        end
  with
  | Some a, Some sd, Some ed, Some st =>
      Some (Budget.mk (newBudgetId docs) a sd ed (User._id req_user) st
              (match BudgetBody.alertThreshold body with
               | Some t => t
               | None => 80
               end))
  | _, _, _, _ => None
  end.

(** [createBudget]; [valid] is [validationResult(req).isEmpty()]. *)
Definition createBudget (now : Z) (req_user : User.t) (valid : bool)
    (body : BudgetBody.t) (s : Store) : Reply Budget.t * Store :=
  if negb valid then (Refused 400 "Validation failed", s)
  else
    match newBudget req_user body (budgets s) with
    | None => (Thrown SchemaError, s)
    | Some doc =>
        if negb (validate doc) then (Thrown SchemaError, s)
        else
          match pre_save now doc with
          | None => (Thrown ServerError, s)
          | Some budget =>
              (Sent 201 budget,
               mkStore (expenses s) (budgets s ++ [budget]) (users s))
          end
    end.

(** The document after [findByIdAndUpdate(id, req.body)]. *)
Definition applyUpdate (body : BudgetBody.t) (st : Budget.Status)
    (b : Budget.t) : Budget.t :=
  let or {A : Type} (x : option A) (d : A) :=
    match x with Some v => v | None => d end in
  Budget.mk (Budget._id b)
    (or (BudgetBody.amount body) (Budget.amount b))
    (or (BudgetBody.startDate body) (Budget.startDate b))
    (or (BudgetBody.endDate body) (Budget.endDate b))
    (Budget.owner b) st
    (or (BudgetBody.alertThreshold body) (Budget.alertThreshold b)).

(** [runValidators: true] on the paths that the update sets. *)
Definition updateValidators (body : BudgetBody.t) : bool :=
  match BudgetBody.amount body with
  | Some a => Qle_bool 0 a
  | None => true
  end &&
  match BudgetBody.alertThreshold body with
  | Some t => Qle_bool 0 t && Qle_bool t 100
  | None => true
  end.

(** [updateBudget]; [valid] is [validationResult(req).isEmpty()]. *)
Definition updateBudget (req_user : User.t) (id : Id) (valid : bool)
    (body : BudgetBody.t) (s : Store) : Reply Budget.t * Store :=
  if negb valid then (Refused 400 "Validation failed", s)
  else
    match findById Budget._id id (budgets s) with
    | None => (Refused 404 "Budget not found", s)
    | Some budget =>
        if User.Role_eqb (User.role req_user) User.user &&
           negb (Budget.owner budget =? User._id req_user)%nat
        then (Refused 403 "Not authorized to update this budget", s)
        else
          match
            match BudgetBody.status body with
            | Some str => status_of_string str
            | None => Some (Budget.status budget)
            end
          with
          | None => (Thrown SchemaError, s)
          | Some st =>
              if negb (updateValidators body) then (Thrown SchemaError, s)
              else
                let updated := applyUpdate body st budget in
                (Sent 200 updated,
                 mkStore (expenses s)
                   (saveDoc Budget._id updated (budgets s)) (users s))
          end
    end.

(** [router.post('/', protect, budgetValidation, createBudget)]. *)
Definition post (now : Z) (req_user : User.t) (body : BudgetBody.t)
    (s : Store) : Reply Budget.t * Store :=
  createBudget now req_user (budgetValidation body) body s.

(** [router.put('/:id', protect, updateBudgetValidation, updateBudget)]. *)
Definition put (req_user : User.t) (id : Id) (body : BudgetBody.t)
    (s : Store) : Reply Budget.t * Store :=
  updateBudget req_user id (updateBudgetValidation body) body s.

End budgetWrites.

Module budgetViews.

(** The figures that [getBudget] and [getBudgets] add to a budget. *)
Record Figures := mkFigures {
  spentAmount : Q;
  remainingAmount : Q;
  usagePercentage : Z;
  approvedExpenses : list Expense.t
}.

(** The computation of [getBudget] after the access check. *)
Definition figures (budget : Budget.t) (docs : list Expense.t) : Figures :=
  let expenses :=
    filter
      (fun e =>
         match Expense.budget e with
         | Some b => (b =? Budget._id budget)%nat
         | None => false
         end &&
         Expense.Status_eqb (Expense.status e) Expense.approved) docs in
  let spentAmount :=
    fold_left (fun total expense => total + Expense.amount expense)
      expenses 0 in
  let remainingAmount := Budget.amount budget - spentAmount in
  let usagePercentage :=
    if negb (Qle_bool (Budget.amount budget) 0)
    then JS.Math_round (spentAmount / Budget.amount budget * 100)
    else 0%Z in
  mkFigures spentAmount remainingAmount usagePercentage expenses.

(** [getBudget]; [owner] is populated, so reading its [_id] throws when
    the owner is no longer stored. *)
Definition getBudget (req_user : User.t) (id : Id) (s : Store)
    : Reply (Budget.t * Figures) :=
  match findById Budget._id id (budgets s) with
  | None => Refused 404 "Budget not found"
  | Some budget =>
      let answer := Sent 200 (budget, figures budget (expenses s)) in
      if User.Role_eqb (User.role req_user) User.user
      then
        match findById User._id (Budget.owner budget) (users s) with
        | None => Thrown ServerError
        | Some owner =>
            if negb (User._id owner =? User._id req_user)%nat
            then Refused 403 "Not authorized to access this budget"
            else answer
        end
      else answer
  end.



End budgetViews.

(** ** models/Expense: receipts *)

Module Receipts.

Inductive FileType := image | document | other.

(** A stored receipt of [expense.receipts]. *)
Record t := mk {
  _id : Id;
  fileName : string;
  originalName : string;
  fileUrl : string;
  fileSize : nat;
  fileType : FileType;
  uploadDate : Z
}.

(** The legacy field [expense.receipt]. *)
Record legacy := mkLegacy {
  l_fileName : option string;
  l_fileUrl : string;
  l_uploadDate : option Z
}.



(** The virtuals [receiptCount] and [hasReceipts]. *)
Definition receiptCount (receipts : list t) : nat := List.length receipts.


(** The part of [expenseSchema.pre('save')] that moves the legacy receipt
    into [receipts]; [newId] is the identifier that the push gives the
    subdocument. *)
Definition migrate (now : Z) (newId : Id) (receipt : option legacy)
    (receipts : list t) : list t :=
  match receipt with
  | Some r =>
      match l_fileName r with
      | Some name =>
          if JS.truthy (Some name) && (List.length receipts =? 0)%nat
          then receipts ++
               [mk newId name name (l_fileUrl r) 0 other
                  (match l_uploadDate r with Some d => d | None => now end)]
          else receipts
      | None => receipts
      end
  | None => receipts
  end.

End Receipts.

(** * Vocabulary of the properties *)

Import expenseController expenseRoutes budgetController.

(** The sum that [reduce((total, x) => total + f(x), 0)] computes. *)
Definition total {A : Type} (f : A -> Q) (l : list A) : Q :=
  fold_left (fun acc x => acc + f x) l 0.

Arguments total : simpl never.

(** The amount that [calculateSpentAmount] reads from an expense:
    [expense.convertedAmount || expense.amount]. *)
Definition converted (e : Expense.t) : Q :=
  JS.num_or (Expense.convertedAmount e) (Expense.amount e).

(** White space removed at the end only. *)
Definition rtrim (l : list ascii) : list ascii := rev (JS.ltrim (rev l)).

(** The actors that the review route lets through. *)
Definition permitted (u : User.t) : Prop :=
  User.role u = User.manager \/ User.role u = User.admin.


(** The date lies in the period of the budget, its ends included. *)
Definition inPeriod (b : Budget.t) (d : Z) : Prop :=
  (Budget.startDate b <= d <= Budget.endDate b)%Z.

(** The date of the expense of a submission: the one sent, else the time
    of the request. *)
Definition expenseDate (now : Z) (body : Body.t) : Z :=
  match Body.date body with Some d => d | None => now end.


(** ** Requests *)

(** The requests served by the handlers above. *)
Inductive Request :=
| PostExpense (now : Z) (u : User.t) (body : Body.t)
| PutExpense (u : User.t) (id : Id) (body : Body.t)
| PutReview (now : Z) (u : User.t) (id : Id) (body : Body.review)
| DeleteBudget (u : User.t) (id : Id).

(** The store after a request. *)
Definition handle (r : Request) (s : Store) : Store :=
  match r with
  | PostExpense now u body => db (post now u body s)
  | PutExpense u id body => db (put u id body s)
  | PutReview now u id body => db (put_review now u id body s)
  | DeleteBudget u id => db (deleteBudget u id s)
  end.

(** The store after a sequence of requests, served one after the other. *)
Definition run (rs : list Request) (s : Store) : Store :=
  fold_left (fun s r => handle r s) rs s.

(** The request is the generic update of an expense. *)
Definition isGenericUpdate (r : Request) : bool :=
  match r with
  | PutExpense _ _ _ => true
  | _ => false
  end.

(** ** Data of the scenarios *)

(** A budget of 1000 with the alert threshold 80, owned by user 7. *)
Definition budget1000 : Budget.t :=
  Budget.mk 1%nat 1000 0%Z 1000%Z 7%nat Budget.active 80.


(** An expense of budget 1, submitted by user 8, without approver,
    approval date, rejection reason or audit entries. *)
Definition expenseOf (id : Id) (amount rate : Q) (st : Expense.Status)
    : Expense.t :=
  Expense.mk id amount rate (Some (amount * rate)) 10%Z (Some 1%nat) st
    8%nat None None None [].

Definition pending850 : Expense.t := expenseOf 1%nat 850 1 Expense.pending.
Definition approved850 : Expense.t := expenseOf 1%nat 850 1 Expense.approved.

Definition manager9 : User.t := User.mk 9%nat User.manager.
Definition user8 : User.t := User.mk 8%nat User.user.

(** The store that holds the budget, one expense and the two users. *)
Definition storeWith (e : Expense.t) : Store :=
  mkStore [e] [budget1000] [manager9; user8].

(** A rejection reason of 201 characters. *)
Definition longReason : string :=
  string_of_list_ascii (repeat "a"%char 201).

(** Bodies of the generic update and of a submission. *)
Definition bodyApprovalDate (d : Z) : Body.t :=
  Body.mk None None None None None None (Some d) None.

Definition bodyStatus (str : string) : Body.t :=
  Body.mk None None None None (Some str) None None None.

Definition bodyFor (budget : Id) (amount : Q) (date : Z) : Body.t :=
  Body.mk (Some amount) None (Some date) (Some budget) None None None None.

(** ** Further requests *)

(** The requests above, and those served by the further handlers. *)
Inductive Call :=
| Served (r : Request)
| DeleteExpense (u : User.t) (id : Id)
| PostBudget (now : Z) (u : User.t) (body : BudgetBody.t)
| PutBudget (u : User.t) (id : Id) (body : BudgetBody.t).

(** The store after a call. *)
Definition serve (c : Call) (s : Store) : Store :=
  match c with
  | Served r => handle r s
  | DeleteExpense u id => snd (expenseAccess.deleteExpense u id s)
  | PostBudget now u body => snd (budgetWrites.post now u body s)
  | PutBudget u id body => snd (budgetWrites.put u id body s)
  end.

(** The store after a sequence of calls, served one after the other. *)
Definition serveAll (cs : list Call) (s : Store) : Store :=
  fold_left (fun s c => serve c s) cs s.

(** The call is the update of a budget. *)
Definition isBudgetUpdate (c : Call) : bool :=
  match c with
  | PutBudget _ _ _ => true
  | _ => false
  end.

(** The budget ends after it starts. *)
Definition wellDated (b : Budget.t) : Prop :=
  (Budget.startDate b < Budget.endDate b)%Z.

(** The expense is one of the budget and approved: the expenses that the
    alert check and the budget views count. *)
Definition countsFor (bid : Id) (e : Expense.t) : Prop :=
  Expense.budget e = Some bid /\ Expense.status e = Expense.approved.

(** The pages 1 to [n] of [getExpenses] for one limit, one after the
    other; a page that the model does not cover counts as empty. *)
Definition pagesUpTo {A : Type} (qlimit : option Z) (found : list A)
    (n : nat) : list A :=
  flat_map
    (fun p =>
       match expenseAccess.getExpenses (Some (Z.of_nat p)) qlimit found with
       | Some (docs, _) => docs
       | None => []
       end)
    (seq 1 n).

(** The actor may delete the expense: an admin any expense, the others
    their own, and a user only while it is pending. *)
Definition mayDelete (u : User.t) (e : Expense.t) : Prop :=
  (User.role u = User.admin \/ Expense.submittedBy e = User._id u) /\
  (User.role u = User.user -> Expense.status e = Expense.pending).

(** The expenses in one status. *)
Definition withStatus (st : Expense.Status) (l : list Expense.t)
    : list Expense.t :=
  filter (fun e => Expense.Status_eqb (Expense.status e) st) l.


(** Bodies of the scenarios for budgets. *)
Definition budgetBodyFor (amount : Q) (startDate endDate : Z)
    (status : option string) : BudgetBody.t :=
  BudgetBody.mk (Some amount) (Some startDate) (Some endDate) status None.

Definition budgetBodyEnd (endDate : Z) : BudgetBody.t :=
  BudgetBody.mk None None (Some endDate) None None.

(** * Properties *)

(** ** Rounding *)





(** ** Sums computed by [reduce] *)

Section Sums.

Context {A : Type} (f : A -> Q).

Lemma fold_left_shift (l : list A) (a : Q) :
  fold_left (fun acc x => acc + f x) l a == a + total f l.
Proof.
  unfold total. revert a.
  induction l as [| x l IH]; intros a; cbn [fold_left].
  - lra.
  - rewrite (IH (a + f x)), (IH (0 + f x)). lra.
Qed.

Lemma total_nil : total f [] == 0.
Proof. reflexivity. Qed.

Lemma total_cons (x : A) (l : list A) : total f (x :: l) == f x + total f l.
Proof.
  unfold total at 1. cbn [fold_left]. rewrite fold_left_shift. lra.
Qed.

Lemma total_app (l1 l2 : list A) :
  total f (l1 ++ l2) == total f l1 + total f l2.
Proof.
  induction l1 as [| x l1 IH]; cbn [app].
  - rewrite total_nil. lra.
  - rewrite !total_cons, IH. lra.
Qed.

(** The sum over the documents selected by a query, when one document is
    replaced by another. *)
Lemma total_filter_replace (q : A -> bool) (l1 l2 : list A) (x y : A) :
  total f (filter q (l1 ++ y :: l2)) + (if q x then f x else 0) ==
  total f (filter q (l1 ++ x :: l2)) + (if q y then f y else 0).
Proof.
  rewrite !filter_app, !total_app. cbn [filter].
  destruct (q x), (q y); rewrite ?total_cons; lra.
Qed.

End Sums.

(** ** Collections *)

Section CollectionFacts.

Context {A : Type} (key : A -> Id).

Lemma findById_key (id : Id) (docs : list A) (d : A) :
  findById key id docs = Some d -> key d = id.
Proof.
  unfold findById. intros H. apply find_some in H.
  destruct H as [_ H]. apply Nat.eqb_eq in H. exact H.
Qed.

(** The found document splits the collection, and saving a document
    under the same identifier replaces exactly it. *)
Lemma saveDoc_split (id : Id) (docs : list A) (d d' : A) :
  findById key id docs = Some d -> key d' = id ->
  exists l1 l2, docs = l1 ++ d :: l2 /\
                saveDoc key d' docs = l1 ++ d' :: l2.
Proof.
  intros Hfind Hkey. subst id.
  induction docs as [| x docs IH]; cbn in Hfind |- *; [discriminate |].
  destruct (key x =? key d')%nat eqn:E.
  - injection Hfind as ->. exists [], docs. split; reflexivity.
  - destruct (IH Hfind) as (l1 & l2 & -> & Hs).
    exists (x :: l1), l2. cbn. rewrite Hs. split; reflexivity.
Qed.

Lemma findById_saveDoc (id : Id) (docs : list A) (d d' : A) :
  findById key id docs = Some d -> key d' = id ->
  findById key id (saveDoc key d' docs) = Some d'.
Proof.
  intros Hfind Hkey. subst id.
  induction docs as [| x docs IH]; cbn in Hfind |- *; [discriminate |].
  destruct (key x =? key d')%nat eqn:E; cbn.
  - rewrite Nat.eqb_refl. reflexivity.
  - rewrite E. apply IH. exact Hfind.
Qed.

Lemma findById_saveDoc_other (id : Id) (docs : list A) (d' : A) :
  key d' <> id ->
  findById key id (saveDoc key d' docs) = findById key id docs.
Proof.
  intros Hkey.
  induction docs as [| x docs IH]; cbn; [reflexivity |].
  destruct (key x =? key d')%nat eqn:E; cbn.
  - apply Nat.eqb_eq in E.
    assert (En : (key d' =? id)%nat = false) by (apply Nat.eqb_neq; exact Hkey).
    rewrite En, E, En. reflexivity.
  - destruct (key x =? id)%nat; [reflexivity | exact IH].
Qed.

Lemma findById_app_found (id : Id) (docs more : list A) (d : A) :
  findById key id docs = Some d ->
  findById key id (docs ++ more) = Some d.
Proof.
  unfold findById.
  induction docs as [| x docs IH]; cbn; [discriminate |].
  destruct (key x =? id)%nat; [trivial | exact IH].
Qed.

End CollectionFacts.

(** ** The ledger: spent amount *)

Lemma calculateSpentAmount_sum (b : Budget.t) (E : list Expense.t) :
  Budget.calculateSpentAmount b E ==
  total converted (filter (Budget.counted (Budget._id b)) E).
Proof. reflexivity. Qed.

(** An expense that is pending or rejected adds nothing to
    [calculateSpentAmount]. *)
Lemma calculateSpentAmount_skips (b : Budget.t) (E1 E2 : list Expense.t)
    (e : Expense.t) :
  Expense.status e = Expense.pending \/ Expense.status e = Expense.rejected ->
  Budget.calculateSpentAmount b (E1 ++ e :: E2) ==
  Budget.calculateSpentAmount b (E1 ++ E2).
Proof.
  intros Hst. rewrite !calculateSpentAmount_sum, !filter_app.
  cbn [filter]. unfold Budget.counted at 2.
  destruct Hst as [-> | ->]; cbn; rewrite andb_false_r; reflexivity.
Qed.

(** One more approved or reimbursed expense of the budget adds exactly its
    converted amount. *)
Lemma calculateSpentAmount_adds (b : Budget.t) (E1 E2 : list Expense.t)
    (e : Expense.t) :
  Expense.budget e = Some (Budget._id b) ->
  Expense.status e = Expense.approved \/
  Expense.status e = Expense.reimbursed ->
  Budget.calculateSpentAmount b (E1 ++ e :: E2) ==
  Budget.calculateSpentAmount b (E1 ++ E2) + converted e.
Proof.
  intros Hb Hst. rewrite !calculateSpentAmount_sum, !filter_app, total_app.
  cbn [filter]. unfold Budget.counted at 2. rewrite Hb, Nat.eqb_refl.
  destruct Hst as [-> | ->]; cbn; rewrite total_app, total_cons; lra.
Qed.

(** C1 (code defect): the spent amount of a budget is to be the sum of the
    converted amounts of its approved and reimbursed expenses, which is what
    [calculateSpentAmount] computes; [checkBudgetAlert] computes another
    sum.  A reimbursed expense of 850 is left out of it, and an approved
    expense of 100 at the rate 1.1 counts as 100 instead of its converted
    amount 110; on a budget of 1000 with the threshold 80 the reimbursed
    expense therefore raises no alert. *)
Theorem checkBudgetAlert_spentAmount_differs :
  expenseController.spentAmount 1%nat
    [expenseOf 1%nat 850 1 Expense.reimbursed] == 0 /\
  Budget.calculateSpentAmount budget1000
    [expenseOf 1%nat 850 1 Expense.reimbursed] == 850 /\
  expenseController.checkBudgetAlert
    (mkStore [expenseOf 1%nat 850 1 Expense.reimbursed] [budget1000] [])
    1%nat = [] /\
  expenseController.spentAmount 1%nat
    [expenseOf 2%nat 100 (11 # 10) Expense.approved] == 100 /\
  Budget.calculateSpentAmount budget1000
    [expenseOf 2%nat 100 (11 # 10) Expense.approved] == 110.
Proof. repeat split; vm_compute; reflexivity. Qed.

(** ** The ledger: usage percentage *)





(** ** The alert dispatcher *)



(** ** Trimming *)

Lemma ltrim_head (l : list ascii) (c : ascii) (l' : list ascii) :
  JS.ltrim l = c :: l' -> JS.is_space c = false.
Proof.
  induction l as [| x l IH]; cbn; [discriminate |].
  destruct (JS.is_space x) eqn:E; [exact IH |].
  intros H. injection H as -> _. exact E.
Qed.

Lemma ltrim_fixed (c : ascii) (l : list ascii) :
  JS.is_space c = false -> JS.ltrim (c :: l) = c :: l.
Proof. intros H. cbn. rewrite H. reflexivity. Qed.

Lemma ltrim_idem (l : list ascii) : JS.ltrim (JS.ltrim l) = JS.ltrim l.
Proof.
  destruct (JS.ltrim l) as [| c l'] eqn:E; [reflexivity |].
  apply ltrim_fixed. exact (ltrim_head _ _ _ E).
Qed.

Lemma ltrim_snoc (l : list ascii) (c : ascii) :
  JS.is_space c = false -> JS.ltrim (l ++ [c]) = JS.ltrim l ++ [c].
Proof.
  intros H. induction l as [| x l IH]; cbn.
  - rewrite H. reflexivity.
  - destruct (JS.is_space x); [exact IH | reflexivity].
Qed.

Lemma rtrim_cons (c : ascii) (l : list ascii) :
  JS.is_space c = false -> rtrim (c :: l) = c :: rtrim l.
Proof.
  intros H. unfold rtrim. cbn [rev].
  rewrite (ltrim_snoc _ _ H), rev_app_distr. reflexivity.
Qed.

Lemma rtrim_idem (l : list ascii) : rtrim (rtrim l) = rtrim l.
Proof. unfold rtrim. rewrite rev_involutive, ltrim_idem. reflexivity. Qed.

(** Trimming twice (the route's sanitizer, then the schema's setter) is
    trimming once. *)
Lemma trim_idem (s : string) : JS.trim (JS.trim s) = JS.trim s.
Proof.
  unfold JS.trim. rewrite list_ascii_of_string_of_list_ascii.
  fold (rtrim (JS.ltrim (list_ascii_of_string s))).
  destruct (JS.ltrim (list_ascii_of_string s)) as [| c l] eqn:E.
  - reflexivity.
  - pose proof (ltrim_head _ _ _ E) as Hc.
    rewrite (rtrim_cons _ _ Hc), (ltrim_fixed _ _ Hc).
    fold (rtrim (c :: rtrim l)).
    rewrite (rtrim_cons _ _ Hc), rtrim_idem. reflexivity.
Qed.

Lemma truthy_Some (r : string) :
  JS.truthy (Some r) = true <-> r <> EmptyString.
Proof.
  destruct r; cbn; split; intros H; congruence.
Qed.

(** ** The approval gate: review *)

Lemma authorize_permitted (u : User.t) :
  auth.authorize [User.manager; User.admin] u = true <-> permitted u.
Proof.
  unfold auth.authorize, permitted. cbn.
  destruct (User.role u); cbn; split; intros H;
    try reflexivity; try discriminate; try tauto;
    destruct H; discriminate.
Qed.

Lemma Status_eqb_eq (a b : Expense.Status) :
  Expense.Status_eqb a b = true <-> a = b.
Proof. destruct a, b; cbn; split; intros H; congruence. Qed.

Lemma Status_eqb_neq (a b : Expense.Status) :
  Expense.Status_eqb a b = false <-> a <> b.
Proof. destruct a, b; cbn; split; intros H; congruence. Qed.

(** The status that the sanitizer of the route leaves is the one sent. *)
Lemma reviewValidation_status (body : Body.review) :
  Body.r_status (reviewValidation body) = Body.r_status body.
Proof.
  unfold reviewValidation.
  destruct (Body.r_status body) as [str |] eqn:E; [| exact E].
  destruct (String.eqb str "rejected"); [reflexivity | exact E].
Qed.

(** The hook [pre('save')] changes nothing after the assignments of a
    review: the approval date is already set and the amount is untouched. *)
Lemma pre_save_applyReview (now : Z) (u : User.t) (st : Expense.Status)
    (reason : option string) (e : Expense.t) :
  Expense.pre_save now true false false (applyReview now u st reason e) =
  applyReview now u st reason e.
Proof.
  unfold Expense.pre_save. cbn. rewrite andb_false_r. reflexivity.
Qed.

(** A review of an expense that is not pending fails and changes
    nothing; the controller alone already guarantees it. *)
Lemma reviewExpense_reviewed_fails (now : Z) (u : User.t) (id : Id)
    (body : Body.review) (s : Store) (e : Expense.t) :
  findById Expense._id id (expenses s) = Some e ->
  Expense.status e <> Expense.pending ->
  exists err, reviewExpense now u id body s = reject err s.
Proof.
  intros Hfind Hst. unfold reviewExpense.
  destruct (decision (Body.r_status body)) as [st |]; [| eauto].
  destruct (Expense.Status_eqb st Expense.rejected &&
            negb (JS.truthy (Body.r_rejectionReason body))); [eauto |].
  rewrite Hfind. apply Status_eqb_neq in Hst. rewrite Hst. cbn. eauto.
Qed.

Lemma reviewExpense_not_pending (now : Z) (u : User.t) (id : Id)
    (body : Body.review) (s : Store) (e : Expense.t) (st : Expense.Status) :
  findById Expense._id id (expenses s) = Some e ->
  Expense.status e <> Expense.pending ->
  decision (Body.r_status body) = Some st ->
  (st = Expense.rejected -> JS.truthy (Body.r_rejectionReason body) = true) ->
  reviewExpense now u id body s = reject NotPending s.
Proof.
  intros Hfind Hst Hdec Hreason. unfold reviewExpense. rewrite Hdec.
  destruct (Expense.Status_eqb st Expense.rejected) eqn:Er.
  - apply Status_eqb_eq in Er. rewrite (Hreason Er). cbn.
    rewrite Hfind. apply Status_eqb_neq in Hst. rewrite Hst. reflexivity.
  - cbn. rewrite Hfind. apply Status_eqb_neq in Hst. rewrite Hst.
    reflexivity.
Qed.

(** What a review of a pending expense does when the request passes the
    checks of the controller and the validators of the schema. *)
Lemma reviewExpense_pending (now : Z) (u : User.t) (id : Id)
    (body : Body.review) (s : Store) (e : Expense.t) (st : Expense.Status) :
  findById Expense._id id (expenses s) = Some e ->
  Expense.status e = Expense.pending ->
  decision (Body.r_status body) = Some st ->
  (st = Expense.rejected -> JS.truthy (Body.r_rejectionReason body) = true) ->
  let doc := applyReview now u st (Body.r_rejectionReason body) e in
  Expense.validate doc = true ->
  let s' := withExpenses s (saveDoc Expense._id doc (expenses s)) in
  reviewExpense now u id body s =
    mkOutcome (Success doc) s'
      (ExpenseNotification
         (findById User._id (Expense.submittedBy doc) (users s)) doc st
       :: alertAfter s' (Expense.Status_eqb st Expense.approved) doc).
Proof.
  intros Hfind Hst Hdec Hreason doc Hvalid s'. unfold reviewExpense.
  rewrite Hdec.
  assert (Hgate : Expense.Status_eqb st Expense.rejected &&
                  negb (JS.truthy (Body.r_rejectionReason body)) = false).
  { destruct (Expense.Status_eqb st Expense.rejected) eqn:Er; [| reflexivity].
    apply Status_eqb_eq in Er. rewrite (Hreason Er). reflexivity. }
  rewrite Hgate, Hfind, Hst. cbn [Expense.Status_eqb negb].
  fold doc. rewrite Hvalid. cbn [negb].
  subst doc s'. rewrite !pre_save_applyReview. reflexivity.
Qed.

(** A successful review was a review of a pending expense, and its whole
    outcome is determined by the document it saved. *)
Lemma reviewExpense_success_inv (now : Z) (u : User.t) (id : Id)
    (body : Body.review) (s : Store) (e1 : Expense.t) :
  response (reviewExpense now u id body s) = Success e1 ->
  exists e st,
    decision (Body.r_status body) = Some st /\
    findById Expense._id id (expenses s) = Some e /\
    Expense.status e = Expense.pending /\
    e1 = applyReview now u st (Body.r_rejectionReason body) e /\
    Expense.validate e1 = true /\
    db (reviewExpense now u id body s) =
      withExpenses s (saveDoc Expense._id e1 (expenses s)).
Proof.
  unfold reviewExpense.
  destruct (decision (Body.r_status body)) as [st |] eqn:Hdec;
    [| cbn; discriminate].
  destruct (Expense.Status_eqb st Expense.rejected &&
            negb (JS.truthy (Body.r_rejectionReason body)));
    [cbn; discriminate |].
  destruct (findById Expense._id id (expenses s)) as [e |] eqn:Hfind;
    [| cbn; discriminate].
  destruct (Expense.Status_eqb (Expense.status e) Expense.pending) eqn:Hst;
    [| cbn; discriminate].
  cbn [negb].
  destruct (Expense.validate
              (applyReview now u st (Body.r_rejectionReason body) e))
    eqn:Hvalid; [| cbn; discriminate].
  cbn [negb response db]. rewrite pre_save_applyReview.
  intros H. injection H as <-.
  exists e, st. apply Status_eqb_eq in Hst. repeat split; assumption.
Qed.

Lemma put_review_success_inv (now : Z) (u : User.t) (id : Id)
    (body : Body.review) (s : Store) (e1 : Expense.t) :
  response (put_review now u id body s) = Success e1 ->
  permitted u /\
  put_review now u id body s =
    reviewExpense now u id (reviewValidation body) s.
Proof.
  unfold put_review.
  destruct (auth.authorize [User.manager; User.admin] u) eqn:Ha.
  - intros _. split; [apply authorize_permitted; exact Ha | reflexivity].
  - cbn. discriminate.
Qed.

Lemma put_review_permitted (now : Z) (u : User.t) (id : Id)
    (body : Body.review) (s : Store) :
  permitted u ->
  put_review now u id body s =
    reviewExpense now u id (reviewValidation body) s.
Proof.
  intros H. apply authorize_permitted in H. unfold put_review.
  rewrite H. reflexivity.
Qed.

Lemma decision_approved (body : Body.review) :
  Body.r_status body = Some "approved"%string ->
  decision (Body.r_status (reviewValidation body)) = Some Expense.approved.
Proof. intros H. rewrite reviewValidation_status, H. reflexivity. Qed.

Lemma decision_rejected (body : Body.review) :
  Body.r_status body = Some "rejected"%string ->
  decision (Body.r_status (reviewValidation body)) = Some Expense.rejected.
Proof. intros H. rewrite reviewValidation_status, H. reflexivity. Qed.

(** The reason that the controller sees on a rejection is the trimmed
    one. *)
Lemma reviewValidation_rejected (body : Body.review) :
  Body.r_status body = Some "rejected"%string ->
  Body.r_rejectionReason (reviewValidation body) =
    Some (JS.trim match Body.r_rejectionReason body with
                  | Some r => r
                  | None => EmptyString
                  end).
Proof. intros H. unfold reviewValidation. rewrite H. reflexivity. Qed.

(** C4, as stated, fails: a rejection without a reason of an expense that is
    already approved is answered with the missing reason, which the
    controller checks before it loads the expense. *)
Lemma review_of_reviewed_counterexample :
  findById Expense._id 1%nat (expenses (storeWith approved850)) =
    Some approved850 /\
  Expense.status approved850 <> Expense.pending /\
  permitted manager9 /\
  put_review 20 manager9 1%nat (Body.mkReview (Some "rejected"%string) None)
    (storeWith approved850) = reject MissingReason (storeWith approved850) /\
  response
    (put_review 20 manager9 1%nat
       (Body.mkReview (Some "rejected"%string) None)
       (storeWith approved850)) <> Failure NotPending.
Proof.
  repeat split; try reflexivity; try discriminate.
  left. reflexivity.
Qed.

(** C4 (amended): a review of an expense that is not pending always fails
    and leaves the store as it was.  For a manager or an admin the failure
    is the one for an expense that is not pending whenever the decision is
    approved, or rejected with a reason that is not empty once trimmed.
    After a successful approval a second approval fails in that way, and the
    stored expense keeps the approval date of the first. *)
Theorem review_of_reviewed_expense_fails :
  (forall (now : Z) (u : User.t) (id : Id) (body : Body.review) (s : Store)
          (e : Expense.t),
     findById Expense._id id (expenses s) = Some e ->
     Expense.status e <> Expense.pending ->
     (exists err, put_review now u id body s = reject err s) /\
     (permitted u ->
      Body.r_status body = Some "approved"%string \/
      (Body.r_status body = Some "rejected"%string /\
       exists r, Body.r_rejectionReason body = Some r /\
                 JS.trim r <> EmptyString) ->
      put_review now u id body s = reject NotPending s)) /\
  (forall (now1 now2 : Z) (u1 u2 : User.t) (id : Id)
          (body1 body2 : Body.review) (s : Store) (e1 : Expense.t),
     Body.r_status body1 = Some "approved"%string ->
     Body.r_status body2 = Some "approved"%string ->
     permitted u2 ->
     response (put_review now1 u1 id body1 s) = Success e1 ->
     let s1 := db (put_review now1 u1 id body1 s) in
     Expense.approvalDate e1 = Some now1 /\
     findById Expense._id id (expenses s1) = Some e1 /\
     put_review now2 u2 id body2 s1 = reject NotPending s1).
Proof.
  split.
  - intros now u id body s e Hfind Hst. split.
    + unfold put_review.
      destruct (auth.authorize [User.manager; User.admin] u); [| eauto].
      eapply reviewExpense_reviewed_fails; eassumption.
    + intros Hu Hbody. rewrite (put_review_permitted _ _ _ _ _ Hu).
      destruct Hbody as [Ha | [Hr (r & Hreason & Hne)]].
      * eapply reviewExpense_not_pending;
          [eassumption | assumption | exact (decision_approved _ Ha) |].
        discriminate.
      * eapply reviewExpense_not_pending;
          [eassumption | assumption | exact (decision_rejected _ Hr) |].
        intros _. rewrite (reviewValidation_rejected _ Hr), Hreason.
        apply truthy_Some. exact Hne.
  - intros now1 now2 u1 u2 id body1 body2 s e1 H1 H2 Hu2 Hok s1.
    destruct (put_review_success_inv _ _ _ _ _ _ Hok) as [_ Heq].
    subst s1. rewrite Heq in Hok |- *.
    destruct (reviewExpense_success_inv _ _ _ _ _ _ Hok)
      as (e & st & Hdec & Hfind & Hst & He1 & _ & Hdb).
    rewrite (decision_approved _ H1) in Hdec. injection Hdec as <-.
    assert (Hfind1 :
              findById Expense._id id
                (expenses (db (reviewExpense now1 u1 id
                                 (reviewValidation body1) s))) = Some e1).
    { rewrite Hdb. cbn [withExpenses expenses].
      eapply findById_saveDoc; [exact Hfind |].
      rewrite He1. cbn. exact (findById_key _ _ _ _ Hfind). }
    split; [rewrite He1; reflexivity |].
    split; [exact Hfind1 |].
    rewrite (put_review_permitted _ _ _ _ _ Hu2).
    eapply reviewExpense_not_pending;
      [exact Hfind1 | | exact (decision_approved _ H2) | discriminate].
    rewrite He1. cbn. discriminate.
Qed.

Lemma review_of_reviewed_expense_fails_witness :
  put_review 30 manager9 1%nat (Body.mkReview (Some "approved"%string) None)
    (storeWith approved850) = reject NotPending (storeWith approved850) /\
  (let s1 :=
     db (put_review 20 manager9 1%nat
           (Body.mkReview (Some "approved"%string) None)
           (storeWith pending850)) in
   Expense.approvalDate
     (applyReview 20 manager9 Expense.approved None pending850) =
     Some 20%Z /\
   findById Expense._id 1%nat (expenses s1) =
     Some (applyReview 20 manager9 Expense.approved None pending850) /\
   put_review 30 manager9 1%nat
     (Body.mkReview (Some "approved"%string) None) s1 =
     reject NotPending s1).
Proof.
  split.
  - apply (proj2 (proj1 review_of_reviewed_expense_fails 30%Z manager9 1%nat
                    (Body.mkReview (Some "approved"%string) None)
                    (storeWith approved850) approved850
                    eq_refl ltac:(discriminate))).
    + left. reflexivity.
    + left. reflexivity.
  - apply (proj2 review_of_reviewed_expense_fails 20%Z 30%Z manager9 manager9
             1%nat (Body.mkReview (Some "approved"%string) None)
             (Body.mkReview (Some "approved"%string) None)
             (storeWith pending850)
             (applyReview 20 manager9 Expense.approved None pending850)).
    + reflexivity.
    + reflexivity.
    + left. reflexivity.
    + reflexivity.
Defined.

(** C5, as stated, fails: a rejection of a pending expense by a manager
    with a reason of 201 characters does not succeed; the schema limits
    [rejectionReason] to 200 characters and the save is refused. *)
Lemma reject_with_reason_counterexample :
  Expense.status pending850 = Expense.pending /\
  permitted manager9 /\
  longReason <> EmptyString /\
  String.length longReason = 201%nat /\
  put_review 20 manager9 1%nat
    (Body.mkReview (Some "rejected"%string) (Some longReason))
    (storeWith pending850) = reject SchemaError (storeWith pending850).
Proof.
  repeat split; try (vm_compute; reflexivity); try discriminate.
  left. reflexivity.
Qed.

(** C5 (amended): a review with the decision rejected and an empty reason
    always fails with the missing reason, in the controller for every actor
    and on the route for a manager or an admin.  With a reason that is not
    empty once trimmed and then has at most 200 characters, the review of a
    pending expense that satisfies its schema, by a manager or an admin,
    always succeeds: the stored expense gets the status rejected and the
    trimmed reason. *)
Theorem reject_requires_reason :
  (forall (now : Z) (u : User.t) (id : Id) (body : Body.review) (s : Store),
     Body.r_status body = Some "rejected"%string ->
     JS.truthy (Body.r_rejectionReason body) = false ->
     reviewExpense now u id body s = reject MissingReason s /\
     (permitted u -> put_review now u id body s = reject MissingReason s)) /\
  (forall (now : Z) (u : User.t) (id : Id) (body : Body.review) (s : Store)
          (e : Expense.t) (r : string),
     permitted u ->
     Body.r_status body = Some "rejected"%string ->
     Body.r_rejectionReason body = Some r ->
     JS.trim r <> EmptyString ->
     (String.length (JS.trim r) <= 200)%nat ->
     findById Expense._id id (expenses s) = Some e ->
     Expense.status e = Expense.pending ->
     Expense.validate e = true ->
     exists e1,
       response (put_review now u id body s) = Success e1 /\
       Expense.status e1 = Expense.rejected /\
       Expense.rejectionReason e1 = Some (JS.trim r) /\
       findById Expense._id id (expenses (db (put_review now u id body s))) =
         Some e1).
Proof.
  split.
  - intros now u id body s Hst Hfalsy.
    assert (Hc : forall b : Body.review,
               Body.r_status b = Some "rejected"%string ->
               JS.truthy (Body.r_rejectionReason b) = false ->
               reviewExpense now u id b s = reject MissingReason s).
    { intros b Hb Hf. unfold reviewExpense. rewrite Hb. cbn.
      rewrite Hf. reflexivity. }
    split; [exact (Hc body Hst Hfalsy) |].
    intros Hu. rewrite (put_review_permitted _ _ _ _ _ Hu).
    apply Hc.
    + rewrite reviewValidation_status. exact Hst.
    + rewrite (reviewValidation_rejected _ Hst).
      destruct (Body.r_rejectionReason body) as [[| c r] |];
        [reflexivity | discriminate Hfalsy | reflexivity].
  - intros now u id body s e r Hu Hst Hreason Hne Hlen Hfind Hpend Hvalid.
    rewrite (put_review_permitted _ _ _ _ _ Hu).
    pose proof (reviewValidation_rejected _ Hst) as Hsan.
    rewrite Hreason in Hsan.
    assert (Htruthy : JS.truthy
                        (Body.r_rejectionReason (reviewValidation body)) =
                      true).
    { rewrite Hsan. apply truthy_Some. exact Hne. }
    assert (Hdoc : applyReview now u Expense.rejected
                     (Body.r_rejectionReason (reviewValidation body)) e =
                   Expense.mk (Expense._id e) (Expense.amount e)
                     (Expense.exchangeRate e) (Expense.convertedAmount e)
                     (Expense.date e) (Expense.budget e) Expense.rejected
                     (Expense.submittedBy e) (Some (User._id u)) (Some now)
                     (Some (JS.trim r)) (Expense.auditLog e)).
    { unfold applyReview. rewrite Htruthy, Hsan. cbn [option_map].
      rewrite trim_idem. reflexivity. }
    rewrite (reviewExpense_pending now u id (reviewValidation body) s e
               Expense.rejected Hfind Hpend (decision_rejected _ Hst)
               (fun _ => Htruthy)).
    + rewrite Hdoc. eexists. cbn [response db withExpenses expenses].
      repeat split.
      eapply findById_saveDoc; [exact Hfind |].
      cbn. exact (findById_key _ _ _ _ Hfind).
    + rewrite Hdoc. unfold Expense.validate in Hvalid |- *. cbn.
      apply andb_true_iff in Hvalid. destruct Hvalid as [Hv _].
      rewrite Hv. cbn. apply Nat.leb_le. exact Hlen.
Qed.

Lemma reject_requires_reason_witness :
  put_review 20 manager9 1%nat (Body.mkReview (Some "rejected"%string) None)
    (storeWith pending850) = reject MissingReason (storeWith pending850) /\
  exists e1,
    response
      (put_review 20 manager9 1%nat
         (Body.mkReview (Some "rejected"%string)
            (Some " no receipt "%string))
         (storeWith pending850)) = Success e1 /\
    Expense.status e1 = Expense.rejected /\
    Expense.rejectionReason e1 = Some (JS.trim " no receipt ") /\
    findById Expense._id 1%nat
      (expenses
         (db (put_review 20 manager9 1%nat
                (Body.mkReview (Some "rejected"%string)
                   (Some " no receipt "%string))
                (storeWith pending850)))) = Some e1.
Proof.
  split.
  - apply (proj1 reject_requires_reason 20%Z manager9 1%nat
             (Body.mkReview (Some "rejected"%string) None)
             (storeWith pending850) eq_refl eq_refl).
    left. reflexivity.
  - apply (proj2 reject_requires_reason 20%Z manager9 1%nat
             (Body.mkReview (Some "rejected"%string)
                (Some " no receipt "%string))
             (storeWith pending850) pending850 " no receipt "%string).
    + left. reflexivity.
    + reflexivity.
    + reflexivity.
    + vm_compute. discriminate.
    + vm_compute. lia.
    + reflexivity.
    + reflexivity.
    + reflexivity.
Defined.

(** ** The approval gate: what a review writes *)

(** A review either succeeds or is answered by a failure that leaves the
    store as it was. *)
Lemma reviewExpense_total (now : Z) (u : User.t) (id : Id)
    (body : Body.review) (s : Store) :
  (exists e1, response (reviewExpense now u id body s) = Success e1) \/
  (exists err, reviewExpense now u id body s = reject err s).
Proof.
  unfold reviewExpense.
  destruct (decision (Body.r_status body)) as [st |]; [| eauto].
  destruct (Expense.Status_eqb st Expense.rejected &&
            negb (JS.truthy (Body.r_rejectionReason body))); [eauto |].
  destruct (findById Expense._id id (expenses s)) as [e |]; [| eauto].
  destruct (negb (Expense.Status_eqb (Expense.status e) Expense.pending));
    [eauto |].
  destruct (negb (Expense.validate
                    (applyReview now u st (Body.r_rejectionReason body) e)));
    [eauto |].
  left. eexists. reflexivity.
Qed.

Lemma put_review_total (now : Z) (u : User.t) (id : Id)
    (body : Body.review) (s : Store) :
  (exists e1, response (put_review now u id body s) = Success e1) \/
  (exists err, put_review now u id body s = reject err s).
Proof.
  unfold put_review.
  destruct (auth.authorize [User.manager; User.admin] u); [| eauto].
  apply reviewExpense_total.
Qed.

(** A successful review on the route, in terms of the expense it found. *)
Lemma put_review_success (now : Z) (u : User.t) (id : Id)
    (body : Body.review) (s : Store) (e1 : Expense.t) :
  response (put_review now u id body s) = Success e1 ->
  exists e st,
    permitted u /\
    decision (Body.r_status body) = Some st /\
    findById Expense._id id (expenses s) = Some e /\
    Expense.status e = Expense.pending /\
    e1 = applyReview now u st
           (Body.r_rejectionReason (reviewValidation body)) e /\
    db (put_review now u id body s) =
      withExpenses s (saveDoc Expense._id e1 (expenses s)).
Proof.
  intros Hok.
  destruct (put_review_success_inv _ _ _ _ _ _ Hok) as [Hu Heq].
  rewrite Heq in Hok |- *.
  destruct (reviewExpense_success_inv _ _ _ _ _ _ Hok)
    as (e & st & Hdec & Hfind & Hst & He1 & _ & Hdb).
  rewrite reviewValidation_status in Hdec.
  exists e, st. repeat split; assumption.
Qed.

(** No review writes to the audit log of the expense. *)
Lemma review_keeps_auditLog (now : Z) (u : User.t) (id : Id)
    (body : Body.review) (s : Store) (e e1 : Expense.t) :
  findById Expense._id id (expenses s) = Some e ->
  response (put_review now u id body s) = Success e1 ->
  Expense.auditLog e1 = Expense.auditLog e.
Proof.
  intros Hfind Hok.
  destruct (put_review_success _ _ _ _ _ _ Hok)
    as (e' & st & _ & _ & Hfind' & _ & He1 & _).
  rewrite Hfind in Hfind'. injection Hfind' as <-.
  rewrite He1. reflexivity.
Qed.

(** The method that would record the review does append one entry. *)
Lemma addAuditLog_appends (now : Z) (action : string) (by_ : Id)
    (changes reason : option string) (e : Expense.t) :
  Expense.auditLog (Expense.addAuditLog now action by_ changes reason e) =
  Expense.auditLog e ++ [Expense.mkAudit action by_ now changes reason].
Proof. reflexivity. Qed.

(** C7 (code defect): a successful review is to append one entry, tagged
    approved or rejected, to the audit log of the expense; [reviewExpense]
    appends none.  The manager approves, and in a second run rejects, a
    pending expense with an empty audit log; both reviews succeed and the
    audit log of the saved expense is still empty. *)
Theorem review_appends_no_audit_entry :
  Expense.auditLog pending850 = [] /\
  (exists e1,
     response
       (put_review 20 manager9 1%nat
          (Body.mkReview (Some "approved"%string) None)
          (storeWith pending850)) = Success e1 /\
     Expense.status e1 = Expense.approved /\
     Expense.auditLog e1 = []) /\
  (exists e1,
     response
       (put_review 20 manager9 1%nat
          (Body.mkReview (Some "rejected"%string) (Some "no receipt"%string))
          (storeWith pending850)) = Success e1 /\
     Expense.status e1 = Expense.rejected /\
     Expense.auditLog e1 = []).
Proof.
  split; [reflexivity |].
  split; eexists; repeat split.
Qed.

(** ** Requests and what they leave of a reviewed expense *)

Lemma createExpense_db (now : Z) (u : User.t) (valid : bool) (body : Body.t)
    (s : Store) :
  (exists e, response (createExpense now u valid body s) = Success e /\
             db (createExpense now u valid body s) =
               withExpenses s (expenses s ++ [e])) \/
  (exists err, createExpense now u valid body s = reject err s).
Proof.
  unfold createExpense.
  destruct (negb valid); [eauto |].
  destruct (checkBudget now body s); [eauto |].
  destruct (Body.amount body) as [amount |]; [| eauto].
  destruct (newExpense now u body amount (expenses s)) as [doc |]; [| eauto].
  destruct (negb (Expense.validate doc)); [eauto |].
  left. eexists. split; reflexivity.
Qed.

Lemma deleteBudget_expenses (u : User.t) (id : Id) (s : Store) :
  expenses (db (budgetController.deleteBudget u id s)) = expenses s.
Proof.
  unfold budgetController.deleteBudget.
  destruct (findById Budget._id id (budgets s)) as [b |]; [| reflexivity].
  destruct (negb (User.Role_eqb (User.role u) User.admin) &&
            negb (Budget.owner b =? User._id u)%nat); [reflexivity |].
  destruct (0 <? countDocuments (budgetController.linked (Budget._id b))
                   (expenses s))%nat; reflexivity.
Qed.

(** A request other than the generic update leaves a stored expense that
    is no longer pending exactly as it is. *)
Lemma reviewed_expense_kept (r : Request) (s : Store) (id : Id)
    (e : Expense.t) :
  isGenericUpdate r = false ->
  findById Expense._id id (expenses s) = Some e ->
  Expense.status e <> Expense.pending ->
  findById Expense._id id (expenses (handle r s)) = Some e.
Proof.
  intros Hr Hfind Hst.
  destruct r as [now u body | u id' body | now u id' body | u id'];
    cbn [handle]; [| discriminate Hr | |].
  - unfold post.
    destruct (createExpense_db now u (expenseValidation body) body s)
      as [(x & _ & ->) | (err & ->)]; cbn.
    + apply findById_app_found. exact Hfind.
    + exact Hfind.
  - destruct (put_review_total now u id' body s) as [(e1 & Hok) | (err & ->)];
      [| exact Hfind].
    destruct (put_review_success _ _ _ _ _ _ Hok)
      as (e' & st & _ & _ & Hfind' & Hpend & He1 & ->).
    cbn [withExpenses expenses].
    rewrite findById_saveDoc_other; [exact Hfind |].
    rewrite He1. cbn. rewrite (findById_key _ _ _ _ Hfind').
    intros ->. rewrite Hfind in Hfind'. injection Hfind' as <-.
    contradiction.
  - rewrite deleteBudget_expenses. exact Hfind.
Qed.

Lemma reviewed_expense_kept_run (rs : list Request) (s : Store) (id : Id)
    (e : Expense.t) :
  Forall (fun r => isGenericUpdate r = false) rs ->
  findById Expense._id id (expenses s) = Some e ->
  Expense.status e <> Expense.pending ->
  findById Expense._id id (expenses (run rs s)) = Some e.
Proof.
  intros Hrs. revert s.
  induction Hrs as [| r rs Hr _ IH]; intros s Hfind Hst; cbn.
  - exact Hfind.
  - apply IH; [| exact Hst].
    apply reviewed_expense_kept; assumption.
Qed.

(** The generic update stores the approval date that the caller sends: the
    submitter of a pending expense gives it an approval date without any
    approval, and moves it to approved without any approval date being
    set, as [findByIdAndUpdate] does not run the hook [pre('save')]. *)
Lemma generic_update_and_approvalDate :
  Expense.status pending850 = Expense.pending /\
  Expense.approvalDate pending850 = None /\
  (exists e1,
     response (put user8 1%nat (bodyApprovalDate 42) (storeWith pending850)) =
       Success e1 /\
     findById Expense._id 1%nat
       (expenses (db (put user8 1%nat (bodyApprovalDate 42)
                        (storeWith pending850)))) = Some e1 /\
     Expense.status e1 = Expense.pending /\
     Expense.approvalDate e1 = Some 42%Z) /\
  (exists e1,
     response (put user8 1%nat (bodyStatus "approved")
                 (storeWith pending850)) = Success e1 /\
     findById Expense._id 1%nat
       (expenses (db (put user8 1%nat (bodyStatus "approved")
                        (storeWith pending850)))) = Some e1 /\
     Expense.status e1 = Expense.approved /\
     Expense.approvalDate e1 = None).
Proof.
  split; [reflexivity |]. split; [reflexivity |].
  split; eexists; repeat split.
Qed.

(** What does hold of the approval date.  A successful review with the
    decision approved sets the approval date to the time of that review and
    the approver to the reviewer; from then on no creation of an expense,
    review or deletion of a budget changes the stored expense, so its
    approval date stays.  A successful review with the decision rejected
    sets the status rejected and the rejection reason to the trimmed
    reason. *)
Lemma approval_sets_date_and_later_requests_keep_it :
  (forall (now : Z) (u : User.t) (id : Id) (body : Body.review) (s : Store)
          (e1 : Expense.t),
     Body.r_status body = Some "approved"%string ->
     response (put_review now u id body s) = Success e1 ->
     Expense.status e1 = Expense.approved /\
     Expense.approvalDate e1 = Some now /\
     Expense.approvedBy e1 = Some (User._id u) /\
     findById Expense._id id (expenses (db (put_review now u id body s))) =
       Some e1 /\
     forall rs : list Request,
       Forall (fun r => isGenericUpdate r = false) rs ->
       findById Expense._id id
         (expenses (run rs (db (put_review now u id body s)))) = Some e1) /\
  (forall (now : Z) (u : User.t) (id : Id) (body : Body.review) (s : Store)
          (e1 : Expense.t) (r : string),
     Body.r_status body = Some "rejected"%string ->
     Body.r_rejectionReason body = Some r ->
     response (put_review now u id body s) = Success e1 ->
     Expense.status e1 = Expense.rejected /\
     Expense.rejectionReason e1 = Some (JS.trim r)).
Proof.
  split.
  - intros now u id body s e1 Hst Hok.
    destruct (put_review_success _ _ _ _ _ _ Hok)
      as (e & st & _ & Hdec & Hfind & _ & He1 & Hdb).
    rewrite Hst in Hdec. injection Hdec as <-.
    assert (Hstored :
              findById Expense._id id
                (expenses (db (put_review now u id body s))) = Some e1).
    { rewrite Hdb. cbn [withExpenses expenses].
      eapply findById_saveDoc; [exact Hfind |].
      rewrite He1. cbn. exact (findById_key _ _ _ _ Hfind). }
    rewrite He1 at 1 2 3. cbn.
    repeat split; try exact Hstored.
    intros rs Hrs.
    apply reviewed_expense_kept_run; [exact Hrs | exact Hstored |].
    rewrite He1. cbn. discriminate.
  - intros now u id body s e1 r Hst Hreason Hok.
    destruct (put_review_success _ _ _ _ _ _ Hok)
      as (e & st & _ & Hdec & Hfind & _ & He1 & Hdb).
    rewrite Hst in Hdec. injection Hdec as <-.
    pose proof (put_review_success_inv _ _ _ _ _ _ Hok) as [_ Heq].
    rewrite Heq in Hok.
    rewrite (reviewValidation_rejected _ Hst), Hreason in He1.
    assert (Htruthy : JS.truthy (Some (JS.trim r)) = true).
    { destruct (JS.truthy (Some (JS.trim r))) eqn:E; [reflexivity |].
      exfalso. revert Hok. unfold reviewExpense.
      rewrite (decision_rejected _ Hst).
      rewrite (reviewValidation_rejected _ Hst), Hreason, E. cbn.
      discriminate. }
    rewrite He1. unfold applyReview. rewrite Htruthy. cbn.
    rewrite trim_idem. split; reflexivity.
Qed.

(** C6 (code defect): the approval date is to be set on the first
    transition into approved only, and a rejection is to set the status and
    the rejection reason only; [reviewExpense] also stamps a rejected
    expense as approved.  The manager rejects a pending expense that has no
    approver and no approval date, and the saved expense, now rejected,
    carries the manager as [approvedBy] and the time of the review as
    [approvalDate], although the hook [pre('save')] of the model sets no
    approval date on a rejected expense. *)
Theorem review_rejected_sets_approval_fields :
  Expense.approvedBy pending850 = None /\
  Expense.approvalDate pending850 = None /\
  (exists e1,
     response
       (put_review 20 manager9 1%nat
          (Body.mkReview (Some "rejected"%string) (Some "no receipt"%string))
          (storeWith pending850)) = Success e1 /\
     Expense.status e1 = Expense.rejected /\
     Expense.rejectionReason e1 = Some "no receipt"%string /\
     Expense.approvedBy e1 = Some 9%nat /\
     Expense.approvalDate e1 = Some 20%Z) /\
  Expense.approvalDate
    (Expense.pre_save 20 true false false
       (expenseOf 1%nat 850 1 Expense.rejected)) = None.
Proof.
  split; [reflexivity |]. split; [reflexivity |].
  split; [eexists; repeat split | reflexivity].
Qed.

(** ** The approval gate: submission *)











(** ** Deletion of a budget *)


Lemma linked_iff (id : Id) (e : Expense.t) :
  linked id e = true <-> Expense.budget e = Some id.
Proof.
  unfold linked. destruct (Expense.budget e) as [b |].
  - rewrite Nat.eqb_eq. split; congruence.
  - split; discriminate.
Qed.



(** ** The generic update and the status *)

Lemma spentAmount_total (bid : Id) (docs : list Expense.t) :
  spentAmount bid docs = total Expense.amount (filter (approvedOf bid) docs).
Proof. reflexivity. Qed.

(** C10: the generic update takes the status from the caller.  A user with
    the role user, whom the review route refuses, moves a pending expense of
    their own to approved by sending that status: the validation of the
    route accepts it, the update succeeds and is stored, the submitter is
    notified of the approval, the budget alert check runs on the budget of
    the expense, and the expense now counts in the spent amount of that
    budget, as the alert check and as [calculateSpentAmount] compute it. *)
Theorem submitter_can_approve_own_expense (s : Store) (u submitter : User.t)
    (id : Id) (e : Expense.t) :
  User.role u = User.user ->
  findById Expense._id id (expenses s) = Some e ->
  Expense.submittedBy e = User._id u ->
  Expense.status e = Expense.pending ->
  findById User._id (User._id u) (users s) = Some submitter ->
  let body := bodyStatus "approved" in
  let e1 := applyUpdate body Expense.approved e in
  let o := put u id body s in
  (forall now rb, put_review now u id rb s = reject Forbidden s) /\
  updateExpenseValidation body = true /\
  response o = Success e1 /\
  Expense.status e1 = Expense.approved /\
  Expense.approvedBy e1 = Expense.approvedBy e /\
  findById Expense._id id (expenses (db o)) = Some e1 /\
  (forall (bid : Id) (b : Budget.t),
     Expense.budget e = Some bid ->
     findById Budget._id bid (budgets s) = Some b ->
     outbox o =
       ExpenseNotification (Some submitter) e1 Expense.approved
       :: checkBudgetAlert (db o) bid /\
     spentAmount bid (expenses (db o)) ==
       spentAmount bid (expenses s) + Expense.amount e /\
     Budget.calculateSpentAmount b (expenses (db o)) ==
       Budget.calculateSpentAmount b (expenses s) + converted e).
Proof.
  intros Hrole Hfind Hsub Hpend Hsubmitter body e1 o.
  assert (Hrun : o =
            let s' := withExpenses s (saveDoc Expense._id e1 (expenses s)) in
            mkOutcome (Success e1) s'
              ([ExpenseNotification (Some submitter) e1 Expense.approved] ++
               alertAfter s'
                 (isSome match Expense.budget e1 with
                         | Some b => findById Budget._id b (budgets s)
                         | None => None
                         end) e1)).
  { subst o. unfold put, updateExpense.
    change (updateExpenseValidation body) with true. cbn [negb].
    rewrite Hfind, Hrole, Hsub, Nat.eqb_refl, Hpend. cbn -[saveDoc findById].
    fold e1. change (Expense.submittedBy e1) with (Expense.submittedBy e).
    rewrite Hsub, Hsubmitter. reflexivity. }
  pose proof (findById_key _ _ _ _ Hfind) as Hkey.
  split; [| split; [| split; [| split; [| split; [| split]]]]].
  - intros now rb. unfold put_review, auth.authorize. rewrite Hrole.
    reflexivity.
  - reflexivity.
  - rewrite Hrun. reflexivity.
  - reflexivity.
  - reflexivity.
  - rewrite Hrun. cbn [db withExpenses expenses].
    eapply findById_saveDoc; [exact Hfind | exact Hkey].
  - intros bid b Hbud Hb.
    destruct (saveDoc_split Expense._id id (expenses s) e e1 Hfind Hkey)
      as (l1 & l2 & Hold & Hnew).
    rewrite Hrun. cbn [db outbox withExpenses expenses].
    change (Expense.budget e1) with (Expense.budget e).
    rewrite Hbud, Hb. cbn [isSome alertAfter app].
    change (Expense.budget e1) with (Expense.budget e). rewrite Hbud.
    split; [reflexivity |].
    rewrite Hnew, Hold. split.
    + rewrite !spentAmount_total.
      pose proof (total_filter_replace Expense.amount (approvedOf bid)
                    l1 l2 e e1) as H.
      assert (Hq : approvedOf bid e = false).
      { unfold approvedOf. rewrite Hpend. apply andb_false_r. }
      assert (Hq1 : approvedOf bid e1 = true).
      { unfold approvedOf. change (Expense.budget e1) with (Expense.budget e).
        rewrite Hbud, Nat.eqb_refl. reflexivity. }
      rewrite Hq, Hq1 in H.
      change (Expense.amount e1) with (Expense.amount e) in H. lra.
    + rewrite !calculateSpentAmount_sum.
      rewrite (findById_key _ _ _ _ Hb).
      pose proof (total_filter_replace converted (Budget.counted bid)
                    l1 l2 e e1) as H.
      assert (Hq : Budget.counted bid e = false).
      { unfold Budget.counted. rewrite Hpend. apply andb_false_r. }
      assert (Hq1 : Budget.counted bid e1 = true).
      { unfold Budget.counted.
        change (Expense.budget e1) with (Expense.budget e).
        rewrite Hbud, Nat.eqb_refl. reflexivity. }
      rewrite Hq, Hq1 in H.
      change (converted e1) with (converted e) in H. lra.
Qed.

Lemma submitter_can_approve_own_expense_witness :
  response (put user8 1%nat (bodyStatus "approved") (storeWith pending850)) =
    Success (applyUpdate (bodyStatus "approved") Expense.approved pending850)
  /\
  outbox (put user8 1%nat (bodyStatus "approved") (storeWith pending850)) =
    ExpenseNotification (Some user8)
      (applyUpdate (bodyStatus "approved") Expense.approved pending850)
      Expense.approved
    :: checkBudgetAlert
         (db (put user8 1%nat (bodyStatus "approved")
                (storeWith pending850))) 1%nat.
Proof.
  pose proof (submitter_can_approve_own_expense (storeWith pending850)
                user8 user8 1%nat pending850
                eq_refl eq_refl eq_refl eq_refl eq_refl)
    as (_ & _ & Hok & _ & _ & _ & Hbudget).
  split; [exact Hok |].
  exact (proj1 (Hbudget 1%nat budget1000 eq_refl eq_refl)).
Defined.

(** * Further properties of the handlers *)

(** ** What a review does to the ledger and to the outbox *)

(** The whole outcome of a successful review. *)
Lemma reviewExpense_success_outcome (now : Z) (u : User.t) (id : Id)
    (body : Body.review) (s : Store) (e1 : Expense.t) :
  response (reviewExpense now u id body s) = Success e1 ->
  exists e st,
    findById Expense._id id (expenses s) = Some e /\
    Expense.status e = Expense.pending /\
    e1 = applyReview now u st (Body.r_rejectionReason body) e /\
    (st = Expense.approved \/ st = Expense.rejected) /\
    reviewExpense now u id body s =
      mkOutcome (Success e1)
        (withExpenses s (saveDoc Expense._id e1 (expenses s)))
        (ExpenseNotification
           (findById User._id (Expense.submittedBy e) (users s)) e1 st
         :: alertAfter
              (withExpenses s (saveDoc Expense._id e1 (expenses s)))
              (Expense.Status_eqb st Expense.approved) e1).
Proof.
  unfold reviewExpense.
  destruct (decision (Body.r_status body)) as [st |] eqn:Hdec;
    [| cbn; discriminate].
  destruct (Expense.Status_eqb st Expense.rejected &&
            negb (JS.truthy (Body.r_rejectionReason body)));
    [cbn; discriminate |].
  destruct (findById Expense._id id (expenses s)) as [e |] eqn:Hfind;
    [| cbn; discriminate].
  destruct (Expense.Status_eqb (Expense.status e) Expense.pending) eqn:Hst;
    [| cbn; discriminate].
  cbn [negb].
  destruct (Expense.validate
              (applyReview now u st (Body.r_rejectionReason body) e))
    eqn:Hvalid; [| cbn; discriminate].
  cbn [negb response]. rewrite !pre_save_applyReview.
  intros H. injection H as <-.
  exists e, st. apply Status_eqb_eq in Hst.
  repeat split; try assumption; try reflexivity.
  unfold decision in Hdec.
  destruct (Body.r_status body) as [str |]; [| discriminate].
  cbn in Hdec.
  destruct (String.eqb str "approved") eqn:Ea.
  - apply String.eqb_eq in Ea. subst str. cbn in Hdec. left. congruence.
  - destruct (String.eqb str "rejected") eqn:Er; cbn in Hdec;
      [| discriminate].
    apply String.eqb_eq in Er. subst str. cbn in Hdec. right. congruence.
Qed.

Lemma put_review_success_outcome (now : Z) (u : User.t) (id : Id)
    (body : Body.review) (s : Store) (e1 : Expense.t) :
  response (put_review now u id body s) = Success e1 ->
  exists e st,
    findById Expense._id id (expenses s) = Some e /\
    Expense.status e = Expense.pending /\
    e1 = applyReview now u st
           (Body.r_rejectionReason (reviewValidation body)) e /\
    (st = Expense.approved \/ st = Expense.rejected) /\
    put_review now u id body s =
      mkOutcome (Success e1)
        (withExpenses s (saveDoc Expense._id e1 (expenses s)))
        (ExpenseNotification
           (findById User._id (Expense.submittedBy e) (users s)) e1 st
         :: alertAfter
              (withExpenses s (saveDoc Expense._id e1 (expenses s)))
              (Expense.Status_eqb st Expense.approved) e1).
Proof.
  intros Hok.
  destruct (put_review_success_inv _ _ _ _ _ _ Hok) as [_ Heq].
  rewrite Heq in Hok |- *.
  exact (reviewExpense_success_outcome _ _ _ _ _ _ Hok).
Qed.

(** X1: a successful review changes the money spent on a budget, as the
    alert check and as [calculateSpentAmount] compute it, by exactly the
    amount (the converted amount) of the reviewed expense when the decision
    is approved and the expense is one of that budget, and not at all
    otherwise; it leaves the budgets and the users of the store alone. *)
Theorem review_changes_spent_by_the_expense (now : Z) (u : User.t) (id : Id)
    (body : Body.review) (s : Store) (e e1 : Expense.t) :
  findById Expense._id id (expenses s) = Some e ->
  response (put_review now u id body s) = Success e1 ->
  let s1 := db (put_review now u id body s) in
  budgets s1 = budgets s /\ users s1 = users s /\
  (forall bid : Id,
     countsFor bid e1 ->
     spentAmount bid (expenses s1) ==
       spentAmount bid (expenses s) + Expense.amount e) /\
  (forall bid : Id,
     ~ countsFor bid e1 ->
     spentAmount bid (expenses s1) == spentAmount bid (expenses s)) /\
  (forall b : Budget.t,
     countsFor (Budget._id b) e1 ->
     Budget.calculateSpentAmount b (expenses s1) ==
       Budget.calculateSpentAmount b (expenses s) + converted e) /\
  (forall b : Budget.t,
     ~ countsFor (Budget._id b) e1 ->
     Budget.calculateSpentAmount b (expenses s1) ==
       Budget.calculateSpentAmount b (expenses s)).
Proof.
  intros Hfind Hok s1.
  destruct (put_review_success_outcome _ _ _ _ _ _ Hok)
    as (e' & st & Hfind' & Hpend & He1 & Hst & Hrun).
  rewrite Hfind in Hfind'. injection Hfind' as <-.
  subst s1. rewrite Hrun. cbn [db withExpenses budgets users expenses].
  assert (Hkey : Expense._id e1 = id).
  { rewrite He1. cbn. exact (findById_key _ _ _ _ Hfind). }
  destruct (saveDoc_split Expense._id id (expenses s) e e1 Hfind Hkey)
    as (l1 & l2 & Hold & Hnew).
  rewrite Hnew, Hold.
  assert (Hamount : Expense.amount e1 = Expense.amount e)
    by (rewrite He1; reflexivity).
  assert (Hconv : converted e1 = converted e) by (rewrite He1; reflexivity).
  assert (Hq : forall bid, approvedOf bid e = false).
  { intros bid. unfold approvedOf. rewrite Hpend. apply andb_false_r. }
  assert (Hc : forall bid, Budget.counted bid e = false).
  { intros bid. unfold Budget.counted. rewrite Hpend. apply andb_false_r. }
  assert (Hq1 : forall bid, approvedOf bid e1 = true <-> countsFor bid e1).
  { intros bid. unfold approvedOf, countsFor.
    rewrite andb_true_iff, Status_eqb_eq.
    destruct (Expense.budget e1) as [b |].
    - rewrite Nat.eqb_eq. split; intros [H1 H2]; split; congruence.
    - split; intros [H1 H2]; discriminate. }
  assert (Hc1 : forall bid, countsFor bid e1 -> Budget.counted bid e1 = true).
  { intros bid [Hb Ha]. unfold Budget.counted.
    rewrite Hb, Ha, Nat.eqb_refl. reflexivity. }
  assert (Hc0 : forall bid, ~ countsFor bid e1 ->
                            Budget.counted bid e1 = false).
  { intros bid Hn. unfold Budget.counted, countsFor in *.
    destruct (Expense.budget e1) as [b |]; [| reflexivity].
    destruct (b =? bid)%nat eqn:Eb; [| reflexivity].
    apply Nat.eqb_eq in Eb. subst b.
    destruct Hst as [-> | ->].
    - exfalso. apply Hn. rewrite He1. cbn. split; reflexivity.
    - rewrite He1. reflexivity. }
  repeat split.
  - intros bid Hcounts. rewrite !spentAmount_total.
    pose proof (total_filter_replace Expense.amount (approvedOf bid)
                  l1 l2 e e1) as H.
    rewrite Hq, (proj2 (Hq1 bid) Hcounts), Hamount in H. lra.
  - intros bid Hn. rewrite !spentAmount_total.
    pose proof (total_filter_replace Expense.amount (approvedOf bid)
                  l1 l2 e e1) as H.
    rewrite Hq in H.
    destruct (approvedOf bid e1) eqn:E.
    + exfalso. apply Hn. apply Hq1. exact E.
    + lra.
  - intros b Hcounts. rewrite !calculateSpentAmount_sum.
    pose proof (total_filter_replace converted (Budget.counted (Budget._id b))
                  l1 l2 e e1) as H.
    rewrite Hc, (Hc1 _ Hcounts), Hconv in H. lra.
  - intros b Hn. rewrite !calculateSpentAmount_sum.
    pose proof (total_filter_replace converted (Budget.counted (Budget._id b))
                  l1 l2 e e1) as H.
    rewrite Hc, (Hc0 _ Hn) in H. lra.
Qed.

Lemma review_changes_spent_by_the_expense_witness :
  spentAmount 1%nat
    (expenses (db (put_review 20 manager9 1%nat
                     (Body.mkReview (Some "approved"%string) None)
                     (storeWith pending850)))) ==
  spentAmount 1%nat (expenses (storeWith pending850)) +
  Expense.amount pending850.
Proof.
  apply (proj1 (proj2 (proj2 (review_changes_spent_by_the_expense 20%Z
                                manager9 1%nat
                                (Body.mkReview (Some "approved"%string) None)
                                (storeWith pending850) pending850
                                (applyReview 20 manager9 Expense.approved
                                   None pending850)
                                eq_refl eq_refl)))).
  split; reflexivity.
Defined.





(** ** Deleting an expense *)

Section DeleteOne.

Context {A : Type} (key : A -> Id).

Lemma deleteOne_split (id : Id) (docs : list A) (d : A) :
  findById key id docs = Some d ->
  exists l1 l2, docs = l1 ++ d :: l2 /\ deleteOne key id docs = l1 ++ l2.
Proof.
  induction docs as [| x docs IH]; cbn; [discriminate |].
  destruct (key x =? id)%nat eqn:E.
  - intros H. injection H as ->. exists [], docs. split; reflexivity.
  - intros H. destruct (IH H) as (l1 & l2 & -> & Hd).
    exists (x :: l1), l2. cbn. rewrite Hd. split; reflexivity.
Qed.

Lemma findById_deleteOne_other (id id' : Id) (docs : list A) :
  id' <> id ->
  findById key id' (deleteOne key id docs) = findById key id' docs.
Proof.
  intros Hne. induction docs as [| x docs IH]; cbn; [reflexivity |].
  destruct (key x =? id)%nat eqn:E.
  - apply Nat.eqb_eq in E.
    assert (En : (key x =? id')%nat = false)
      by (apply Nat.eqb_neq; congruence).
    rewrite En. reflexivity.
  - cbn. destruct (key x =? id')%nat; [reflexivity | exact IH].
Qed.

Lemma countDocuments_split (q : A -> bool) (l1 l2 : list A) (d : A) :
  countDocuments q (l1 ++ d :: l2) =
  (countDocuments q (l1 ++ l2) + (if q d then 1 else 0))%nat.
Proof.
  unfold countDocuments. rewrite !filter_app, !length_app. cbn [filter].
  destruct (q d); cbn [List.length]; lia.
Qed.

End DeleteOne.

Lemma mayDelete_dec (u : User.t) (e : Expense.t) :
  (negb (User.Role_eqb (User.role u) User.admin) &&
   negb (Expense.submittedBy e =? User._id u)%nat
   || User.Role_eqb (User.role u) User.user &&
      negb (Expense.Status_eqb (Expense.status e) Expense.pending)) = false
  <-> mayDelete u e.
Proof.
  unfold mayDelete.
  destruct (Expense.submittedBy e =? User._id u)%nat eqn:Eo;
    [apply Nat.eqb_eq in Eo | apply Nat.eqb_neq in Eo];
    destruct (User.role u) eqn:Er; destruct (Expense.status e) eqn:Es; cbn;
    split; intros H; try reflexivity; try discriminate;
    try (split; [tauto | intros; congruence]);
    destruct H as [[H | H] H']; try discriminate; try contradiction;
    try (specialize (H' eq_refl); discriminate).
Qed.

(** X3: an admin may delete any expense, a manager only their own, a user
    only their own while it is pending; every other deletion is refused and
    leaves the store as it was.  A deletion that is carried out removes one
    document, leaves the expenses under other identifiers, the budgets and
    the users as they were, and takes the amount of an approved expense out
    of the money spent on its budget. *)
Theorem deleteExpense_rights_and_effect (u : User.t) (id : Id) (s : Store)
    (e : Expense.t) :
  findById Expense._id id (expenses s) = Some e ->
  (mayDelete u e -> fst (expenseAccess.deleteExpense u id s) = Sent 200 tt) /\
  (~ mayDelete u e ->
   exists code msg,
     expenseAccess.deleteExpense u id s = (Refused code msg, s)) /\
  (fst (expenseAccess.deleteExpense u id s) = Sent 200 tt ->
   let s1 := snd (expenseAccess.deleteExpense u id s) in
   budgets s1 = budgets s /\ users s1 = users s /\
   (List.length (expenses s1) + 1 = List.length (expenses s))%nat /\
   (forall id', id' <> id ->
      findById Expense._id id' (expenses s1) =
      findById Expense._id id' (expenses s)) /\
   (forall bid, countsFor bid e ->
      spentAmount bid (expenses s1) + Expense.amount e ==
      spentAmount bid (expenses s)) /\
   (forall bid, ~ countsFor bid e ->
      spentAmount bid (expenses s1) == spentAmount bid (expenses s))).
Proof.
  intros Hfind.
  pose proof (findById_key _ _ _ _ Hfind) as Hkey.
  pose proof (mayDelete_dec u e) as Hdec.
  unfold expenseAccess.deleteExpense. rewrite Hfind, Hkey.
  destruct (negb (User.Role_eqb (User.role u) User.admin) &&
            negb (Expense.submittedBy e =? User._id u)%nat) eqn:E1.
  - cbn [orb] in Hdec.
    assert (Hno : ~ mayDelete u e) by (intros H; apply Hdec in H; discriminate).
    split; [intros H; contradiction |].
    split; [intros _; eauto | cbn; discriminate].
  - cbn [orb] in Hdec.
    destruct (User.Role_eqb (User.role u) User.user &&
              negb (Expense.Status_eqb (Expense.status e) Expense.pending))
      eqn:E2.
    + assert (Hno : ~ mayDelete u e)
        by (intros H; apply Hdec in H; discriminate).
      split; [intros H; contradiction |].
      split; [intros _; eauto | cbn; discriminate].
    + assert (Hyes : mayDelete u e) by (apply Hdec; reflexivity).
      split; [reflexivity |].
      split; [intros H; contradiction |].
      intros _. cbn [snd budgets users expenses].
      destruct (deleteOne_split Expense._id id (expenses s) e Hfind)
        as (l1 & l2 & Hold & Hnew).
      split; [reflexivity |]. split; [reflexivity |].
      split; [rewrite Hnew, Hold, !length_app; cbn; lia |].
      split; [intros id' Hne; apply findById_deleteOne_other; exact Hne |].
      rewrite Hnew, Hold.
      assert (Hq : forall bid, approvedOf bid e = true <-> countsFor bid e).
      { intros bid. unfold approvedOf, countsFor.
        rewrite andb_true_iff, Status_eqb_eq.
        destruct (Expense.budget e) as [b |].
        - rewrite Nat.eqb_eq. split; intros [H1 H2]; split; congruence.
        - split; intros [H1 H2]; discriminate. }
      split; intros bid Hc; rewrite !spentAmount_total, !filter_app,
        !total_app; cbn [filter].
      * rewrite (proj2 (Hq bid) Hc), total_cons. lra.
      * destruct (approvedOf bid e) eqn:E; [| lra].
        exfalso. apply Hc. apply Hq. exact E.
Qed.

Lemma deleteExpense_rights_and_effect_witness :
  fst (expenseAccess.deleteExpense user8 1%nat (storeWith pending850)) =
    Sent 200 tt /\
  exists code msg,
    expenseAccess.deleteExpense manager9 1%nat (storeWith approved850) =
      (Refused code msg, storeWith approved850).
Proof.
  split.
  - apply (proj1 (deleteExpense_rights_and_effect user8 1%nat
                    (storeWith pending850) pending850 eq_refl)).
    split; [right; reflexivity | reflexivity].
  - apply (proj1 (proj2 (deleteExpense_rights_and_effect manager9 1%nat
                           (storeWith approved850) approved850 eq_refl))).
    intros [[H | H] _]; discriminate H.
Defined.

(** X4: a budget with exactly one expense linked to it cannot be deleted
    by its owner or an admin; once that expense is deleted, the same
    deletion of the budget succeeds. *)
Theorem deleting_last_expense_frees_budget (u owner : User.t) (id bid : Id)
    (s : Store) (e : Expense.t) (b : Budget.t) :
  findById Expense._id id (expenses s) = Some e ->
  Expense.budget e = Some bid ->
  countDocuments (linked bid) (expenses s) = 1%nat ->
  findById Budget._id bid (budgets s) = Some b ->
  User.role owner = User.admin \/ Budget.owner b = User._id owner ->
  fst (expenseAccess.deleteExpense u id s) = Sent 200 tt ->
  deleteBudget owner bid s = reject HasExpenses s /\
  response
    (deleteBudget owner bid (snd (expenseAccess.deleteExpense u id s))) =
    Success tt.
Proof.
  intros Hfind Hbud Hcount Hb Hauth Hdel.
  pose proof (findById_key _ _ _ _ Hfind) as Hkey.
  pose proof (findById_key _ _ _ _ Hb) as Hbkey.
  assert (Hgate : negb (User.Role_eqb (User.role owner) User.admin) &&
                  negb (Budget.owner b =? User._id owner)%nat = false).
  { destruct Hauth as [-> | ->]; [reflexivity |].
    rewrite Nat.eqb_refl. apply andb_false_r. }
  split.
  - unfold deleteBudget. rewrite Hb, Hgate, Hbkey, Hcount. reflexivity.
  - revert Hdel. unfold expenseAccess.deleteExpense. rewrite Hfind, Hkey.
    destruct (negb (User.Role_eqb (User.role u) User.admin) &&
              negb (Expense.submittedBy e =? User._id u)%nat);
      [cbn; discriminate |].
    destruct (User.Role_eqb (User.role u) User.user &&
              negb (Expense.Status_eqb (Expense.status e) Expense.pending));
      [cbn; discriminate |].
    intros _. cbn [snd].
    unfold deleteBudget. cbn [budgets expenses]. rewrite Hb, Hgate, Hbkey.
    destruct (deleteOne_split Expense._id id (expenses s) e Hfind)
      as (l1 & l2 & Hold & Hnew).
    rewrite Hold, countDocuments_split in Hcount.
    assert (Hl : linked bid e = true) by (apply linked_iff; exact Hbud).
    rewrite Hl in Hcount. rewrite Hnew.
    assert (Hzero : countDocuments (linked bid) (l1 ++ l2) = 0%nat) by lia.
    rewrite Hzero. reflexivity.
Qed.

Lemma deleting_last_expense_frees_budget_witness :
  deleteBudget (User.mk 7%nat User.manager) 1%nat (storeWith pending850) =
    reject HasExpenses (storeWith pending850) /\
  response
    (deleteBudget (User.mk 7%nat User.manager) 1%nat
       (snd (expenseAccess.deleteExpense user8 1%nat
               (storeWith pending850)))) = Success tt.
Proof.
  apply (deleting_last_expense_frees_budget user8
           (User.mk 7%nat User.manager) 1%nat 1%nat (storeWith pending850)
           pending850 budget1000 eq_refl eq_refl eq_refl eq_refl).
  - right. reflexivity.
  - reflexivity.
Defined.

(** ** Reading one expense or one budget *)

(** X5: [getExpense] and [getBudget] answer with a document only when it
    is stored under the identifier asked for, and they never show a user
    with the role user an expense that another one submitted or a budget
    that another one owns; a manager or an admin gets every stored
    document. *)
Theorem single_reads_respect_ownership (u : User.t) (id : Id) (s : Store) :
  (forall code e,
     expenseAccess.getExpense u id s = Sent code e ->
     findById Expense._id id (expenses s) = Some e /\
     (User.role u = User.user -> Expense.submittedBy e = User._id u)) /\
  (forall code b f,
     budgetViews.getBudget u id s = Sent code (b, f) ->
     findById Budget._id id (budgets s) = Some b /\
     (User.role u = User.user -> Budget.owner b = User._id u)) /\
  (User.role u <> User.user ->
   (forall e, findById Expense._id id (expenses s) = Some e ->
              expenseAccess.getExpense u id s = Sent 200 e) /\
   (forall b, findById Budget._id id (budgets s) = Some b ->
              exists f, budgetViews.getBudget u id s = Sent 200 (b, f))).
Proof.
  split; [| split].
  - intros code e. unfold expenseAccess.getExpense.
    destruct (findById Expense._id id (expenses s)) as [x |];
      [| discriminate].
    destruct (User.role u) eqn:Er; cbn [User.Role_eqb].
    + intros H. injection H as _ <-. split; [reflexivity | discriminate].
    + intros H. injection H as _ <-. split; [reflexivity | discriminate].
    + destruct (findById User._id (Expense.submittedBy x) (users s))
        as [w |] eqn:Ew; [| discriminate].
      destruct (User._id w =? User._id u)%nat eqn:E; cbn; [| discriminate].
      intros H. injection H as _ <-. split; [reflexivity |].
      intros _. apply Nat.eqb_eq in E. rewrite <- E.
      symmetry. exact (findById_key _ _ _ _ Ew).
  - intros code b f. unfold budgetViews.getBudget.
    destruct (findById Budget._id id (budgets s)) as [x |];
      [| discriminate].
    destruct (User.role u) eqn:Er; cbn [User.Role_eqb].
    + intros H. injection H as _ <- _. split; [reflexivity | discriminate].
    + intros H. injection H as _ <- _. split; [reflexivity | discriminate].
    + destruct (findById User._id (Budget.owner x) (users s))
        as [w |] eqn:Ew; [| discriminate].
      destruct (User._id w =? User._id u)%nat eqn:E; cbn; [| discriminate].
      intros H. injection H as _ <- _. split; [reflexivity |].
      intros _. apply Nat.eqb_eq in E. rewrite <- E.
      symmetry. exact (findById_key _ _ _ _ Ew).
  - intros Hrole. split.
    + intros e Hfind. unfold expenseAccess.getExpense. rewrite Hfind.
      destruct (User.role u); cbn; try reflexivity. contradiction.
    + intros b Hfind. unfold budgetViews.getBudget. rewrite Hfind.
      destruct (User.role u); cbn; eauto. contradiction.
Qed.

Lemma single_reads_respect_ownership_witness :
  expenseAccess.getExpense manager9 1%nat (storeWith pending850) =
    Sent 200 pending850.
Proof.
  apply (proj1 (proj2 (proj2 (single_reads_respect_ownership manager9 1%nat
                                (storeWith pending850)))
                  ltac:(discriminate))).
  reflexivity.
Defined.

(** ** The figures of a budget *)






(** ** Analytics *)

Lemma tally_fold (l : list Expense.t) (a : expenseAccess.Analytics) :
  let r := fold_left expenseAccess.tally l a in
  expenseAccess.totalExpenses r = expenseAccess.totalExpenses a /\
  expenseAccess.totalAmount r ==
    expenseAccess.totalAmount a + total Expense.amount l /\
  expenseAccess.approvedAmount r ==
    expenseAccess.approvedAmount a +
    total Expense.amount (withStatus Expense.approved l) /\
  expenseAccess.pendingAmount r ==
    expenseAccess.pendingAmount a +
    total Expense.amount (withStatus Expense.pending l) /\
  expenseAccess.rejectedAmount r ==
    expenseAccess.rejectedAmount a +
    total Expense.amount (withStatus Expense.rejected l) /\
  expenseAccess.n_pending r =
    (expenseAccess.n_pending a +
     List.length (withStatus Expense.pending l))%nat /\
  expenseAccess.n_approved r =
    (expenseAccess.n_approved a +
     List.length (withStatus Expense.approved l))%nat /\
  expenseAccess.n_rejected r =
    (expenseAccess.n_rejected a +
     List.length (withStatus Expense.rejected l))%nat /\
  expenseAccess.n_reimbursed r =
    (expenseAccess.n_reimbursed a +
     List.length (withStatus Expense.reimbursed l))%nat.
Proof.
  revert a. induction l as [| x l IH]; intros a; cbn [fold_left].
  - cbn. rewrite !total_nil. repeat split; try lra; lia.
  - specialize (IH (expenseAccess.tally a x)). cbv zeta in IH |- *.
    destruct IH as (H0 & H1 & H2 & H3 & H4 & H5 & H6 & H7 & H8).
    rewrite H0, H1, H2, H3, H4, H5, H6, H7, H8.
    unfold withStatus, expenseAccess.tally. cbn [filter].
    rewrite total_cons.
    destruct (Expense.status x); cbn;
      rewrite ?total_cons; repeat split; try lra; lia.
Qed.

Lemma status_partition (l : list Expense.t) :
  total Expense.amount l ==
  total Expense.amount (withStatus Expense.approved l) +
  total Expense.amount (withStatus Expense.pending l) +
  total Expense.amount (withStatus Expense.rejected l) +
  total Expense.amount (withStatus Expense.reimbursed l) /\
  List.length l =
  (List.length (withStatus Expense.pending l) +
   List.length (withStatus Expense.approved l) +
   List.length (withStatus Expense.rejected l) +
   List.length (withStatus Expense.reimbursed l))%nat.
Proof.
  unfold withStatus. induction l as [| x l [IHa IHn]]; cbn [filter].
  - rewrite !total_nil. split; [lra | reflexivity].
  - rewrite total_cons.
    destruct (Expense.status x); cbn; rewrite ?total_cons; split;
      try lra; lia.
Qed.

(** X7: in the figures of [getExpenseAnalytics] the four counts of the
    status breakdown add up to the number of expenses, and each amount is
    the sum over the expenses in its status; the total amount is the sum
    over all expenses, so it exceeds the approved, pending and rejected
    amounts together by the amounts of the reimbursed expenses, which no
    other amount shows. *)
Theorem expense_analytics_add_up (found : list Expense.t) :
  let a := expenseAccess.getExpenseAnalytics found in
  expenseAccess.totalExpenses a = List.length found /\
  (expenseAccess.n_pending a + expenseAccess.n_approved a +
   expenseAccess.n_rejected a + expenseAccess.n_reimbursed a)%nat =
    expenseAccess.totalExpenses a /\
  expenseAccess.totalAmount a == total Expense.amount found /\
  expenseAccess.approvedAmount a ==
    total Expense.amount (withStatus Expense.approved found) /\
  expenseAccess.pendingAmount a ==
    total Expense.amount (withStatus Expense.pending found) /\
  expenseAccess.rejectedAmount a ==
    total Expense.amount (withStatus Expense.rejected found) /\
  expenseAccess.totalAmount a ==
    expenseAccess.approvedAmount a + expenseAccess.pendingAmount a +
    expenseAccess.rejectedAmount a +
    total Expense.amount (withStatus Expense.reimbursed found).
Proof.
  cbv zeta. unfold expenseAccess.getExpenseAnalytics.
  pose proof (tally_fold found
                (expenseAccess.mkAnalytics (List.length found)
                   0 0 0 0 0 0 0 0)) as H.
  cbv zeta in H. cbn in H.
  destruct H as (H0 & H1 & H2 & H3 & H4 & H5 & H6 & H7 & H8).
  destruct (status_partition found) as [Hsum Hlen].
  rewrite H0, H1, H2, H3, H4, H5, H6, H7, H8.
  repeat split; try lra; lia.
Qed.

Section MoreSums.

Context {A : Type}.



End MoreSums.



(** ** Saving and creating a budget *)

Lemma Budget_Status_eqb_eq (a b : Budget.Status) :
  Budget.Status_eqb a b = true <-> a = b.
Proof. destruct a, b; cbn; split; intros H; congruence. Qed.



(** The budget that a creation stores, and what the body gave it. *)
Lemma createBudget_inv (now : Z) (u : User.t) (body : BudgetBody.t)
    (s : Store) (code : nat) (b : Budget.t) :
  fst (budgetWrites.post now u body s) = Sent code b ->
  exists doc,
    budgetWrites.budgetValidation body = true /\
    budgetWrites.newBudget u body (budgets s) = Some doc /\
    budgetWrites.validate doc = true /\
    budgetWrites.pre_save now doc = Some b /\
    code = 201%nat /\
    snd (budgetWrites.post now u body s) =
      mkStore (expenses s) (budgets s ++ [b]) (users s).
Proof.
  unfold budgetWrites.post, budgetWrites.createBudget.
  destruct (budgetWrites.budgetValidation body); [| cbn; discriminate].
  cbn [negb].
  destruct (budgetWrites.newBudget u body (budgets s)) as [doc |];
    [| cbn; discriminate].
  destruct (budgetWrites.validate doc) eqn:Hv; [| cbn; discriminate].
  cbn [negb].
  destruct (budgetWrites.pre_save now doc) as [b' |] eqn:Hs;
    [| cbn; discriminate].
  cbn [fst snd]. intros H. injection H as <- <-.
  exists doc. repeat split; assumption.
Qed.

Lemma createBudget_total (now : Z) (u : User.t) (body : BudgetBody.t)
    (s : Store) :
  (exists b, fst (budgetWrites.post now u body s) = Sent 201 b) \/
  snd (budgetWrites.post now u body s) = s.
Proof.
  unfold budgetWrites.post, budgetWrites.createBudget.
  destruct (negb (budgetWrites.budgetValidation body)); [right; reflexivity |].
  destruct (budgetWrites.newBudget u body (budgets s)) as [doc |];
    [| right; reflexivity].
  destruct (negb (budgetWrites.validate doc)); [right; reflexivity |].
  destruct (budgetWrites.pre_save now doc) as [b' |];
    [| right; reflexivity].
  left. eexists. reflexivity.
Qed.

Lemma pre_save_fields (now : Z) (doc b : Budget.t) :
  budgetWrites.pre_save now doc = Some b ->
  wellDated b /\
  Budget._id b = Budget._id doc /\
  Budget.amount b = Budget.amount doc /\
  Budget.owner b = Budget.owner doc /\
  Budget.alertThreshold b = Budget.alertThreshold doc /\
  Budget.startDate b = Budget.startDate doc /\
  Budget.endDate b = Budget.endDate doc.
Proof.
  unfold budgetWrites.pre_save, wellDated.
  destruct (Budget.endDate doc <=? Budget.startDate doc)%Z eqn:Ed;
    [discriminate |].
  apply Z.leb_gt in Ed. intros H. injection H as <-.
  destruct (Budget.Status_eqb (Budget.status doc) Budget.approved &&
            (Budget.startDate doc <=? now)%Z &&
            (now <=? Budget.endDate doc)%Z);
    [cbn; repeat split; exact Ed |].
  destruct (Budget.Status_eqb (Budget.status doc) Budget.active &&
            (now >? Budget.endDate doc)%Z);
    cbn; repeat split; exact Ed.
Qed.

Lemma newBudgetId_fresh (docs : list Budget.t) (d : Budget.t) :
  In d docs -> (Budget._id d < budgetWrites.newBudgetId docs)%nat.
Proof.
  unfold budgetWrites.newBudgetId.
  induction docs as [| x docs IH]; cbn; [contradiction |].
  intros [-> | H]; [lia |]. specialize (IH H). lia.
Qed.

Lemma findById_appended (docs : list Budget.t) (b : Budget.t) :
  Budget._id b = budgetWrites.newBudgetId docs ->
  findById Budget._id (Budget._id b) (docs ++ [b]) = Some b.
Proof.
  intros Hid. unfold findById.
  assert (Hnone : forall l,
             (forall d, In d l -> Budget._id d <> Budget._id b) ->
             find (fun d => (Budget._id d =? Budget._id b)%nat) (l ++ [b]) =
             Some b).
  { induction l as [| x l IH]; intros Hl; cbn.
    - rewrite Nat.eqb_refl. reflexivity.
    - assert (Hx : (Budget._id x =? Budget._id b)%nat = false).
      { apply Nat.eqb_neq. apply Hl. left. reflexivity. }
      rewrite Hx. apply IH. intros d Hd. apply Hl. right. exact Hd. }
  apply Hnone. intros d Hd. pose proof (newBudgetId_fresh docs d Hd). lia.
Qed.



(** X11: a budget created without a status is a draft, and every
    submission of an expense against it is refused as made against an
    inactive budget; a budget created as approved with the time of the
    request inside its period is stored as active, and a submission
    without a date made at that time passes the checks of the budget. *)
Theorem created_budget_and_submissions (now : Z) (u : User.t)
    (body : BudgetBody.t) (s : Store) (code : nat) (b : Budget.t) :
  fst (budgetWrites.post now u body s) = Sent code b ->
  let s1 := snd (budgetWrites.post now u body s) in
  findById Budget._id (Budget._id b) (budgets s1) = Some b /\
  (BudgetBody.status body = None ->
   Budget.status b = Budget.draft /\
   forall now' u' ebody,
     Body.budget ebody = Some (Budget._id b) ->
     expenseValidation ebody = true ->
     post now' u' ebody s1 = reject BudgetInactive s1) /\
  (BudgetBody.status body = Some "approved"%string ->
   inPeriod b now ->
   Budget.status b = Budget.active /\
   forall ebody,
     Body.budget ebody = Some (Budget._id b) ->
     Body.date ebody = None ->
     checkBudget now ebody s1 = None).
Proof.
  intros Hok s1.
  destruct (createBudget_inv _ _ _ _ _ _ Hok)
    as (doc & _ & Hnew & _ & Hsave & _ & Hdb).
  destruct (pre_save_fields _ _ _ Hsave)
    as (_ & Hid & _ & _ & _ & Hsd & Hed).
  assert (Hdocid : Budget._id doc = budgetWrites.newBudgetId (budgets s)).
  { unfold budgetWrites.newBudget in Hnew.
    destruct (BudgetBody.amount body); [| discriminate].
    destruct (BudgetBody.startDate body); [| discriminate].
    destruct (BudgetBody.endDate body); [| discriminate].
    destruct (match BudgetBody.status body with
              | Some str => budgetWrites.status_of_string str
              | None => Some Budget.draft
              end); [| discriminate].
    injection Hnew as <-. reflexivity. }
  assert (Hfind : findById Budget._id (Budget._id b) (budgets s1) = Some b).
  { subst s1. rewrite Hdb. cbn [budgets].
    apply findById_appended. congruence. }
  split; [exact Hfind |].
  split.
  - intros Hnone.
    assert (Hst : Budget.status doc = Budget.draft).
    { unfold budgetWrites.newBudget in Hnew. rewrite Hnone in Hnew.
      destruct (BudgetBody.amount body); [| discriminate].
      destruct (BudgetBody.startDate body); [| discriminate].
      destruct (BudgetBody.endDate body); [| discriminate].
      injection Hnew as <-. reflexivity. }
    assert (Hb : Budget.status b = Budget.draft).
    { revert Hsave. unfold budgetWrites.pre_save. rewrite Hst.
      destruct (Budget.endDate doc <=? Budget.startDate doc)%Z;
        [discriminate |].
      cbn. intros H. injection H as <-. exact Hst. }
    split; [exact Hb |].
    intros now' u' ebody Hbud Hval.
    unfold post, createExpense. rewrite Hval. cbn [negb].
    unfold checkBudget. rewrite Hbud, Hfind, Hb. reflexivity.
  - intros Happ Hin.
    assert (Hst : Budget.status doc = Budget.approved).
    { unfold budgetWrites.newBudget in Hnew. rewrite Happ in Hnew.
      destruct (BudgetBody.amount body); [| discriminate].
      destruct (BudgetBody.startDate body); [| discriminate].
      destruct (BudgetBody.endDate body); [| discriminate].
      cbn in Hnew. injection Hnew as <-. reflexivity. }
    unfold inPeriod in Hin. rewrite Hsd, Hed in Hin.
    assert (Hb : Budget.status b = Budget.active).
    { revert Hsave. unfold budgetWrites.pre_save. rewrite Hst.
      destruct (Budget.endDate doc <=? Budget.startDate doc)%Z;
        [discriminate |].
      assert (H1 : (Budget.startDate doc <=? now)%Z = true)
        by (apply Z.leb_le; lia).
      assert (H2 : (now <=? Budget.endDate doc)%Z = true)
        by (apply Z.leb_le; lia).
      rewrite H1, H2. cbn. intros H. injection H as <-. reflexivity. }
    split; [exact Hb |].
    intros ebody Hbud Hdate.
    unfold checkBudget. rewrite Hbud, Hfind, Hb, Hdate, Hsd, Hed. cbn.
    assert (H1 : (now <? Budget.startDate doc)%Z = false)
      by (apply Z.ltb_ge; lia).
    assert (H2 : (now >? Budget.endDate doc)%Z = false)
      by (rewrite Z.gtb_ltb; apply Z.ltb_ge; lia).
    rewrite H1, H2. reflexivity.
Qed.

Lemma created_budget_and_submissions_witness :
  Budget.status
    (Budget.mk 2%nat 100 0%Z 50%Z 8%nat Budget.draft 80) = Budget.draft /\
  post 7 user8 (bodyFor 2%nat 40 7)
    (snd (budgetWrites.post 5 user8 (budgetBodyFor 100 0 50 None)
            (storeWith pending850))) =
  reject BudgetInactive
    (snd (budgetWrites.post 5 user8 (budgetBodyFor 100 0 50 None)
            (storeWith pending850))).
Proof.
  destruct (proj1 (proj2 (created_budget_and_submissions 5%Z user8
                            (budgetBodyFor 100 0 50 None)
                            (storeWith pending850) 201%nat
                            (Budget.mk 2%nat 100 0%Z 50%Z 8%nat
                               Budget.draft 80)
                            eq_refl)) eq_refl) as [Hdraft Hrefused].
  split; [exact Hdraft |].
  exact (Hrefused 7%Z user8 (bodyFor 2%nat 40 7) eq_refl eq_refl).
Defined.

(** ** What every call keeps *)

Section ForallDocs.

Context {A : Type} (key : A -> Id) (P : A -> Prop).


Lemma Forall_deleteOne (id : Id) (docs : list A) :
  Forall P docs -> Forall P (deleteOne key id docs).
Proof.
  intros Hdocs. induction Hdocs as [| x l Hx Hl IH]; cbn.
  - constructor.
  - destruct (key x =? id)%nat; [exact Hl | constructor; assumption].
Qed.

End ForallDocs.

(** The store after a generic update: as it was, or with the updated
    document saved after the validators of the update passed. *)
Lemma updateExpense_db (u : User.t) (id : Id) (valid : bool)
    (body : Body.t) (s : Store) :
  db (updateExpense u id valid body s) = s \/
  exists e st,
    findById Expense._id id (expenses s) = Some e /\
    updateValidators body = true /\
    db (updateExpense u id valid body s) =
      withExpenses s
        (saveDoc Expense._id (applyUpdate body st e) (expenses s)).
Proof.
  unfold updateExpense.
  destruct (negb valid); [left; reflexivity |].
  destruct (findById Expense._id id (expenses s)) as [e |];
    [| left; reflexivity].
  destruct (User.Role_eqb (User.role u) User.user &&
            negb (Expense.submittedBy e =? User._id u)%nat);
    [left; reflexivity |].
  destruct (User.Role_eqb (User.role u) User.user &&
            negb (Expense.Status_eqb (Expense.status e) Expense.pending));
    [left; reflexivity |].
  destruct (match Body.status body with
            | Some str => Expense.status_of_string str
            | None => Some (Expense.status e)
            end) as [st |]; [| left; reflexivity].
  destruct (updateValidators body) eqn:Hv; [| left; reflexivity].
  cbn [negb]. right. exists e, st.
  split; [reflexivity |]. split; [reflexivity |].
  match goal with
  | |- context [if ?c then _ else _] => destruct c
  end; reflexivity.
Qed.


Lemma pre_save_valid (now : Z) (ms ma mr : bool) (e : Expense.t) :
  Expense.validate (Expense.pre_save now ms ma mr e) = Expense.validate e.
Proof.
  unfold Expense.pre_save.
  destruct (ms && Expense.Status_eqb (Expense.status e) Expense.approved &&
            match Expense.approvalDate e with
            | Some _ => false
            | None => true
            end);
    destruct (ma || mr); reflexivity.
Qed.

Lemma createExpense_db_valid (now : Z) (u : User.t) (valid : bool)
    (body : Body.t) (s : Store) :
  db (createExpense now u valid body s) = s \/
  exists e, Expense.validate e = true /\
            db (createExpense now u valid body s) =
              withExpenses s (expenses s ++ [e]).
Proof.
  unfold createExpense.
  destruct (negb valid); [left; reflexivity |].
  destruct (checkBudget now body s); [left; reflexivity |].
  destruct (Body.amount body) as [amount |]; [| left; reflexivity].
  destruct (newExpense now u body amount (expenses s)) as [doc |];
    [| left; reflexivity].
  destruct (Expense.validate doc) eqn:Hv; [| left; reflexivity].
  right. eexists. split; [| reflexivity].
  rewrite pre_save_valid. exact Hv.
Qed.

Lemma put_review_db (now : Z) (u : User.t) (id : Id) (body : Body.review)
    (s : Store) :
  db (put_review now u id body s) = s \/
  exists e1, Expense.validate e1 = true /\
             db (put_review now u id body s) =
               withExpenses s (saveDoc Expense._id e1 (expenses s)).
Proof.
  destruct (put_review_total now u id body s) as [(e1 & Hok) | (err & ->)];
    [| left; reflexivity].
  right. exists e1.
  destruct (put_review_success_inv _ _ _ _ _ _ Hok) as [_ Heq].
  rewrite Heq in Hok |- *.
  destruct (reviewExpense_success_inv _ _ _ _ _ _ Hok)
    as (e & st & _ & _ & _ & _ & Hv & Hdb).
  split; assumption.
Qed.

Lemma deleteBudget_db (u : User.t) (id : Id) (s : Store) :
  db (deleteBudget u id s) = s \/
  db (deleteBudget u id s) =
    mkStore (expenses s) (deleteOne Budget._id id (budgets s)) (users s).
Proof.
  unfold deleteBudget.
  destruct (findById Budget._id id (budgets s)) as [b |] eqn:Hfind;
    [| left; reflexivity].
  destruct (negb (User.Role_eqb (User.role u) User.admin) &&
            negb (Budget.owner b =? User._id u)%nat); [left; reflexivity |].
  destruct (0 <? countDocuments (linked (Budget._id b)) (expenses s))%nat;
    [left; reflexivity |].
  right. cbn. rewrite (findById_key _ _ _ _ Hfind). reflexivity.
Qed.

Lemma deleteExpense_db (u : User.t) (id : Id) (s : Store) :
  snd (expenseAccess.deleteExpense u id s) = s \/
  snd (expenseAccess.deleteExpense u id s) =
    mkStore (deleteOne Expense._id id (expenses s)) (budgets s) (users s).
Proof.
  unfold expenseAccess.deleteExpense.
  destruct (findById Expense._id id (expenses s)) as [e |] eqn:Hfind;
    [| left; reflexivity].
  destruct (negb (User.Role_eqb (User.role u) User.admin) &&
            negb (Expense.submittedBy e =? User._id u)%nat);
    [left; reflexivity |].
  destruct (User.Role_eqb (User.role u) User.user &&
            negb (Expense.Status_eqb (Expense.status e) Expense.pending));
    [left; reflexivity |].
  right. cbn. rewrite (findById_key _ _ _ _ Hfind). reflexivity.
Qed.






(** X13: every stored budget ends after it starts for as long as budgets
    are only created and deleted: that holds after any sequence of calls
    without an update of a budget when it held before.  The update of a
    budget does not keep it: it stores the end that is sent without
    comparing it with the start. *)
Theorem budgets_stay_well_dated :
  (forall (cs : list Call) (s : Store),
     Forall (fun c => isBudgetUpdate c = false) cs ->
     Forall wellDated (budgets s) ->
     Forall wellDated (budgets (serveAll cs s))) /\
  (Forall wellDated (budgets (storeWith pending850)) /\
   ~ Forall wellDated
       (budgets (serve (PutBudget (User.mk 7%nat User.manager) 1%nat
                          (budgetBodyEnd (-5)))
                   (storeWith pending850)))).
Proof.
  split.
  - intros cs s Hcs. revert s. unfold serveAll.
    induction Hcs as [| c cs Hc _ IH]; intros s Hs; cbn [fold_left];
      [exact Hs |].
    apply IH.
    destruct c as [[now u body | u id body | now u id body | u id]
                  | u id | now u body | u id body]; cbn [serve handle];
      [| | | | | | discriminate Hc].
    + unfold post.
      destruct (createExpense_db_valid now u (expenseValidation body) body s)
        as [-> | (e & _ & ->)]; exact Hs.
    + unfold put.
      destruct (updateExpense_db u id (updateExpenseValidation body) body s)
        as [-> | (e & st & _ & _ & ->)]; exact Hs.
    + destruct (put_review_db now u id body s) as [-> | (e1 & _ & ->)];
        exact Hs.
    + destruct (deleteBudget_db u id s) as [-> | ->]; [exact Hs |].
      cbn. apply Forall_deleteOne. exact Hs.
    + destruct (deleteExpense_db u id s) as [-> | ->]; exact Hs.
    + destruct (createBudget_total now u body s) as [[b Hok] | ->];
        [| exact Hs].
      destruct (createBudget_inv _ _ _ _ _ _ Hok)
        as (doc & _ & _ & _ & Hsave & _ & ->).
      cbn. apply Forall_app. split; [exact Hs |].
      constructor; [| constructor].
      exact (proj1 (pre_save_fields _ _ _ Hsave)).
  - split.
    + constructor; [unfold wellDated; cbn; lia | constructor].
    + intros H. cbn in H. inversion H as [| x l Hx Hl]; subst.
      unfold wellDated in Hx. cbn in Hx. lia.
Qed.

Lemma budgets_stay_well_dated_witness :
  Forall wellDated
    (budgets
       (serveAll [PostBudget 5 user8 (budgetBodyFor 100 0 50 None);
                  Served (DeleteBudget user8 2%nat)]
          (storeWith pending850))).
Proof.
  apply (proj1 budgets_stay_well_dated).
  - repeat constructor.
  - constructor; [unfold wellDated; cbn; lia | constructor].
Defined.

(** ** What a submission stores *)



(** ** The generic update and the two ledgers *)




(** ** Pages *)

Lemma firstn_plus {A : Type} (a b : nat) (l : list A) :
  firstn (a + b) l = firstn a l ++ firstn b (skipn a l).
Proof.
  revert l. induction a as [| a IH]; intros l; cbn; [reflexivity |].
  destruct l as [| x l]; cbn.
  - rewrite firstn_nil. reflexivity.
  - rewrite IH. reflexivity.
Qed.

Lemma windows_concat {A : Type} (L n : nat) (l : list A) :
  flat_map (fun p => firstn L (skipn ((p - 1) * L) l)) (seq 1 n) =
  firstn (n * L) l.
Proof.
  induction n as [| n IH]; [reflexivity |].
  rewrite seq_S, flat_map_app, IH. cbn [flat_map plus].
  rewrite app_nil_r.
  replace (S n - 1)%nat with n by lia.
  replace (S n * L)%nat with (n * L + L)%nat by lia.
  symmetry. apply firstn_plus.
Qed.

Lemma ceilDiv_bounds (t L : Z) :
  (0 < L)%Z -> (0 <= t)%Z ->
  (0 <= expenseAccess.ceilDiv t L)%Z /\
  (t <= expenseAccess.ceilDiv t L * L)%Z /\
  (expenseAccess.ceilDiv t L * L < t + L)%Z.
Proof.
  intros HL Ht. unfold expenseAccess.ceilDiv.
  pose proof (Z.mul_div_le (- t) L HL) as H1.
  pose proof (Z.mul_succ_div_gt (- t) L HL) as H2.
  assert (H3 : (- t / L <= 0)%Z).
  { apply Z.div_le_upper_bound; lia. }
  nia.
Qed.

(** A page of [getExpenses] for a page number and a limit that are
    positive. *)
Lemma getExpenses_page {A : Type} (p : nat) (qlimit : option Z)
    (found : list A) :
  (1 <= p)%nat ->
  (0 < expenseAccess.parseIntOr qlimit 10)%Z ->
  expenseAccess.getExpenses (Some (Z.of_nat p)) qlimit found =
  Some (firstn (Z.to_nat (expenseAccess.parseIntOr qlimit 10))
          (skipn ((p - 1) * Z.to_nat (expenseAccess.parseIntOr qlimit 10))
             found),
        expenseAccess.mkPagination (Z.of_nat p)
          (expenseAccess.parseIntOr qlimit 10) (List.length found)
          (expenseAccess.ceilDiv (Z.of_nat (List.length found))
             (expenseAccess.parseIntOr qlimit 10))).
Proof.
  intros Hp HL. unfold expenseAccess.getExpenses.
  set (L := expenseAccess.parseIntOr qlimit 10) in *.
  assert (Hpage : expenseAccess.parseIntOr (Some (Z.of_nat p)) 1 =
                  Z.of_nat p).
  { unfold expenseAccess.parseIntOr.
    destruct (Z.of_nat p) eqn:E; [lia | reflexivity | reflexivity]. }
  rewrite Hpage.
  assert (H1 : (L <? 0)%Z = false) by (apply Z.ltb_ge; lia).
  assert (H2 : ((Z.of_nat p - 1) * L <? 0)%Z = false)
    by (apply Z.ltb_ge; nia).
  rewrite H1, H2. cbn [orb].
  replace (Z.to_nat ((Z.of_nat p - 1) * L)) with ((p - 1) * Z.to_nat L)%nat
    by nia.
  reflexivity.
Qed.

(** X16: with a positive limit (10 when none is sent) every page from 1
    on is served with at most that many documents and with the same
    pagination figures; the pages 1 to [pages], one after the other, are
    exactly the documents that match the query, each once and in their
    order, and every page after the last is empty. *)
Theorem pages_cover_the_result {A : Type} (qlimit : option Z)
    (found : list A) :
  let L := expenseAccess.parseIntOr qlimit 10 in
  let n := expenseAccess.ceilDiv (Z.of_nat (List.length found)) L in
  (0 < L)%Z ->
  (forall p : nat,
     (1 <= p)%nat ->
     exists docs,
       expenseAccess.getExpenses (Some (Z.of_nat p)) qlimit found =
         Some (docs,
               expenseAccess.mkPagination (Z.of_nat p) L
                 (List.length found) n) /\
       (Z.of_nat (List.length docs) <= L)%Z /\
       ((n < Z.of_nat p)%Z -> docs = [])) /\
  pagesUpTo qlimit found (Z.to_nat n) = found.
Proof.
  intros L n HL.
  destruct (ceilDiv_bounds (Z.of_nat (List.length found)) L HL
              ltac:(lia)) as (Hn0 & Hn1 & Hn2).
  fold n in Hn0, Hn1, Hn2.
  split.
  - intros p Hp. eexists.
    split; [apply getExpenses_page; assumption |].
    fold L. split.
    + pose proof (firstn_le_length (Z.to_nat L)
                    (skipn ((p - 1) * Z.to_nat L) found)). lia.
    + intros Hlast.
      assert (Hskip : skipn ((p - 1) * Z.to_nat L) found = []).
      { apply skipn_all2. nia. }
      rewrite Hskip. apply firstn_nil.
  - unfold pagesUpTo.
    rewrite (flat_map_ext
               (fun p =>
                  match expenseAccess.getExpenses (Some (Z.of_nat p)) qlimit
                          found with
                  | Some (docs, _) => docs
                  | None => []
                  end)
               (fun p => firstn (Z.to_nat L)
                           (skipn ((p - 1) * Z.to_nat L) found))).
    + rewrite windows_concat. apply firstn_all2. nia.
    + intros p.
      destruct p as [| p].
      * unfold expenseAccess.getExpenses. cbn [expenseAccess.parseIntOr].
        fold L.
        assert (H1 : (L <? 0)%Z = false) by (apply Z.ltb_ge; lia).
        rewrite H1. cbn. reflexivity.
      * rewrite getExpenses_page by (try lia; assumption). reflexivity.
Qed.

Lemma pages_cover_the_result_witness :
  pagesUpTo (Some 2%Z) [1%nat; 2%nat; 3%nat; 4%nat; 5%nat] 3 =
  [1%nat; 2%nat; 3%nat; 4%nat; 5%nat].
Proof.
  apply (proj2 (pages_cover_the_result (Some 2%Z)
                  [1%nat; 2%nat; 3%nat; 4%nat; 5%nat] ltac:(reflexivity))).
Defined.

(** ** Reopening a reviewed expense *)

(** X17: the generic update refuses a user with the role user who
    touches a reviewed expense, and the store stays as it was; a manager or
    an admin can send the status pending for any stored expense, which
    stores it as pending with its approval date still in place, after which
    a review approves it again and replaces the approval date by the time
    of that review. *)
Theorem update_reopens_reviewed_expense (id : Id) (s : Store)
    (e : Expense.t) :
  findById Expense._id id (expenses s) = Some e ->
  (forall u body,
     User.role u = User.user ->
     Expense.status e <> Expense.pending ->
     exists err, put u id body s = reject err s) /\
  (forall u u2 now2,
     User.role u <> User.user ->
     Expense.validate e = true ->
     permitted u2 ->
     let o := put u id (bodyStatus "pending") s in
     exists e0 e2,
       response o = Success e0 /\
       Expense.status e0 = Expense.pending /\
       Expense.approvalDate e0 = Expense.approvalDate e /\
       response
         (put_review now2 u2 id
            (Body.mkReview (Some "approved"%string) None) (db o)) =
         Success e2 /\
       Expense.status e2 = Expense.approved /\
       Expense.approvalDate e2 = Some now2 /\
       Expense.approvedBy e2 = Some (User._id u2)).
Proof.
  intros Hfind.
  pose proof (findById_key _ _ _ _ Hfind) as Hkey.
  split.
  - intros u body Hrole Hst. unfold put, updateExpense.
    destruct (negb (updateExpenseValidation body)); [eauto |].
    rewrite Hfind, Hrole. cbn [User.Role_eqb andb].
    destruct (negb (Expense.submittedBy e =? User._id u)%nat); [eauto |].
    apply Status_eqb_neq in Hst. rewrite Hst. cbn. eauto.
  - intros u u2 now2 Hrole Hvalid Hu2 o.
    set (e0 := applyUpdate (bodyStatus "pending") Expense.pending e).
    assert (Hrun : o = mkOutcome (Success e0)
                         (withExpenses s (saveDoc Expense._id e0
                                            (expenses s))) []).
    { subst o. unfold put, updateExpense.
      change (updateExpenseValidation (bodyStatus "pending")) with true.
      cbn [negb]. rewrite Hfind.
      assert (Hnot : User.Role_eqb (User.role u) User.user = false)
        by (destruct (User.role u); [reflexivity | reflexivity | contradiction]).
      rewrite Hnot. cbn -[saveDoc findById applyUpdate].
      fold e0.
      assert (Hch : negb (Expense.Status_eqb (Expense.status e)
                            Expense.pending) && false = false)
        by apply andb_false_r.
      rewrite Hch. cbn -[saveDoc findById applyUpdate]. reflexivity. }
    assert (Hfind0 : findById Expense._id id (expenses (db o)) = Some e0).
    { rewrite Hrun. cbn [db withExpenses expenses].
      eapply findById_saveDoc; [exact Hfind | exact Hkey]. }
    exists e0, (applyReview now2 u2 Expense.approved None e0).
    split; [rewrite Hrun; reflexivity |].
    split; [reflexivity |]. split; [reflexivity |].
    split; [| repeat split].
    rewrite (put_review_permitted _ _ _ _ _ Hu2).
    rewrite (reviewExpense_pending now2 u2 id
               (reviewValidation (Body.mkReview (Some "approved"%string) None))
               (db o) e0 Expense.approved Hfind0 eq_refl eq_refl
               ltac:(discriminate)).
    + reflexivity.
    + exact Hvalid.
Qed.

Lemma update_reopens_reviewed_expense_witness :
  exists err,
    put user8 1%nat (bodyStatus "pending") (storeWith approved850) =
    reject err (storeWith approved850).
Proof.
  apply (proj1 (update_reopens_reviewed_expense 1%nat
                  (storeWith approved850) approved850 eq_refl)).
  - reflexivity.
  - discriminate.
Defined.

(** ** Receipts *)



(** X19: the hook moves a legacy receipt into the receipts only when the
    expense has none yet: an expense with receipts keeps them as they are,
    a legacy receipt without a file name is never moved, and after one
    save a second save moves nothing. *)
Theorem legacy_receipt_moved_once (now now' : Z) (newId newId' : Id)
    (receipt : option Receipts.legacy) (receipts : list Receipts.t) :
  (receipts <> [] ->
   Receipts.migrate now newId receipt receipts = receipts) /\
  ((forall r, receipt = Some r ->
              Receipts.l_fileName r = None \/
              Receipts.l_fileName r = Some EmptyString) ->
   Receipts.migrate now newId receipt receipts = receipts) /\
  (Receipts.receiptCount (Receipts.migrate now newId receipt receipts) <=
   Nat.max 1 (Receipts.receiptCount receipts))%nat /\
  Receipts.migrate now' newId' receipt
    (Receipts.migrate now newId receipt receipts) =
  Receipts.migrate now newId receipt receipts.
Proof.
  unfold Receipts.migrate, Receipts.receiptCount.
  destruct receipt as [r |]; [| repeat split; intros; lia].
  destruct (Receipts.l_fileName r) as [name |] eqn:En;
    [| repeat split; intros; lia].
  destruct name as [| c name]; cbn [JS.truthy andb];
    [repeat split; intros; lia |].
  destruct receipts as [| x l]; cbn [List.length Nat.eqb app].
  - repeat split.
    + intros H. contradiction.
    + intros H.
      destruct (H r eq_refl) as [H' | H']; rewrite En in H'; discriminate H'.
    + cbn. lia.
  - repeat split; intros; cbn; lia.
Qed.

Lemma legacy_receipt_moved_once_witness :
  Receipts.migrate 5 9%nat
    (Some (Receipts.mkLegacy None "/x" None)) [] = [].
Proof.
  apply (proj1 (proj2 (legacy_receipt_moved_once 5%Z 5%Z 9%nat 9%nat
                         (Some (Receipts.mkLegacy None "/x" None)) []))).
  intros r H. injection H as <-. left. reflexivity.
Defined.
